(** * FortiGate list manager (app.py): the entry store and its validators

    A shallow embedding of the server side of [app.py]: the path and entry
    validators, the backup and audit-log helpers, the line-oriented file
    operations and the endpoints that list, read, change and export the
    list files.

    Modelling choices.
    - A Python [str] is a [string]; its characters are the code points
      below 256.  File contents are kept as the text the bytes decode to.
    - [BASE_DIR] is a finite map from file names to contents, or absent when
      the directory has not been created yet.  List files, backups and
      [change.log] live in that one directory, as in the program.
    - Files are opened in text mode with the default [newline=None]: on
      reading, carriage returns are translated ([universal_newlines]); on
      writing (POSIX) nothing is translated.
    - An endpoint is a computation in an exception-and-state monad: it
      returns a value or raises, and the world it leaves behind is kept in
      both cases, since nothing in the program rolls a write back.
    - The per-file locks serialise requests; one request is modelled at a
      time, so the locks themselves do not appear. *)

From Stdlib Require Import String Ascii List ZArith Lia Bool.
From Stdlib Require Import DecimalString.
From stdpp Require Import base option list gmap strings sorting.

Open Scope string_scope.

(* ===================================================================== *)
(** ** Python string primitives *)
(* ===================================================================== *)

Module Py.

Definition LF : ascii := "010"%char.
Definition CR : ascii := "013"%char.

(** [str.isspace] on one character, for code points below 256:
    U+0009..U+000D, U+001C..U+0020, U+0085 and U+00A0. *)
Definition isspace (c : ascii) : bool :=
  let n := nat_of_ascii c in
  ((9 <=? n)%nat && (n <=? 13)%nat) || ((28 <=? n)%nat && (n <=? 32)%nat)
  || (n =? 133)%nat || (n =? 160)%nat.

(** [s.lstrip(chars)], the set of characters given as a predicate. *)
Fixpoint lstrip_by (p : ascii -> bool) (s : string) : string :=
  match s with
  | EmptyString => EmptyString
  | String c s' => if p c then lstrip_by p s' else s
  end.

(** [s.rstrip(chars)]. *)
Fixpoint rstrip_by (p : ascii -> bool) (s : string) : string :=
  match s with
  | EmptyString => EmptyString
  | String c s' =>
      match rstrip_by p s' with
      | EmptyString => if p c then EmptyString else String c EmptyString
      | r => String c r
      end
  end.

(** [s.strip()] *)
Definition strip (s : string) : string := rstrip_by isspace (lstrip_by isspace s).

(** [s.rstrip('\n\r')] *)
Definition is_eol (c : ascii) : bool := Ascii.eqb c LF || Ascii.eqb c CR.
Definition rstrip_eol (s : string) : string := rstrip_by is_eol s.

(** Truthiness of a string: [if s:] holds for the non-empty ones. *)
Definition truthy (s : string) : bool :=
  match s with EmptyString => false | String _ _ => true end.

(** [s.startswith(pre)] *)
Fixpoint startswith (s pre : string) {struct pre} : bool :=
  match pre, s with
  | EmptyString, _ => true
  | String _ _, EmptyString => false
  | String a pre', String b s' => Ascii.eqb a b && startswith s' pre'
  end.

(** [sub in s] *)
Fixpoint contains (sub s : string) : bool :=
  startswith s sub
  || match s with
     | EmptyString => false
     | String _ s' => contains sub s'
     end.

(** [s.endswith(suf)] *)
Fixpoint endswith (s suf : string) : bool :=
  String.eqb s suf
  || match s with
     | EmptyString => false
     | String _ s' => endswith s' suf
     end.

(** [sep.join(ls)] *)
Fixpoint join (sep : string) (ls : list string) : string :=
  match ls with
  | [] => EmptyString
  | [l] => l
  | l :: ls' => l ++ sep ++ join sep ls'
  end.

(** [s.split('\n')]: the pieces between line feeds; never an empty list. *)
Fixpoint split_lf (s : string) : list string :=
  match s with
  | EmptyString => [EmptyString]
  | String c s' =>
      if Ascii.eqb c LF then EmptyString :: split_lf s'
      else match split_lf s' with
           | [] => [String c EmptyString]
           | l :: ls => String c l :: ls
           end
  end.

(** What a text-mode file object hands out for the stored characters:
    with [newline=None] every CR LF pair and every lone CR reads as LF. *)
Fixpoint universal_newlines (s : string) : string :=
  match s with
  | EmptyString => EmptyString
  | String c s' =>
      if Ascii.eqb c CR then
        match s' with
        | String d s'' =>
            if Ascii.eqb d LF then String LF (universal_newlines s'')
            else String LF (universal_newlines s')
        | EmptyString => String LF EmptyString
        end
      else String c (universal_newlines s')
  end.

(** [f.readlines()] on the translated text: lines keep their terminating
    line feed; a last line without one is kept when it is not empty. *)
Fixpoint readlines (s : string) : list string :=
  match s with
  | EmptyString => []
  | String c s' =>
      if Ascii.eqb c LF then String LF EmptyString :: readlines s'
      else match readlines s' with
           | [] => [String c EmptyString]
           | l :: ls => String c l :: ls
           end
  end.

(** [lines.index(value)]: position of the first occurrence. *)
Fixpoint index (value : string) (lines : list string) : option nat :=
  match lines with
  | [] => None
  | l :: ls => if String.eqb l value then Some 0
               else option_map S (index value ls)
  end.

(** [value in lines] *)
Definition mem (value : string) (lines : list string) : bool :=
  existsb (String.eqb value) lines.

End Py.

Import Py.

(* ===================================================================== *)
(** ** The world: storage directory, clock, exceptions *)
(* ===================================================================== *)

(** [BASE_DIR]: [None] while the directory does not exist, otherwise the
    files in it by name.  [CHANGE_LOG] is the file [change.log] in it. *)
Record World := { base_dir : option (gmap string string) }.

Definition CHANGE_LOG : string := "change.log".

Definition dir (w : World) : gmap string string := default ∅ (base_dir w).

(** [filepath.exists()] *)
Definition exists_ (filepath : string) (w : World) : bool :=
  bool_decide (is_Some (dir w !! filepath)).

(** [BASE_DIR.mkdir(parents=True, exist_ok=True)] *)
Definition mkdir (w : World) : World := {| base_dir := Some (dir w) |}.

(** [open(path, 'w').write(content)]: truncate and rewrite.  The program
    writes only after [mkdir] or next to a file that exists, so the
    directory is there. *)
Definition write_text (path content : string) (w : World) : World :=
  {| base_dir := option_map (insert path content) (base_dir w) |}.

(** [open(path, 'r').read()] of an existing file. *)
Definition read_text (path : string) (w : World) : string :=
  universal_newlines (default EmptyString (dir w !! path)).

(** A reading of [datetime.now()]. *)
Record datetime := {
  year : nat; month : nat; day : nat;
  hour : nat; minute : nat; second : nat }.

Fixpoint zeros (n : nat) : string :=
  match n with O => EmptyString | S n' => String "0" (zeros n') end.

(** A number in decimal, zero-padded to [width] digits, as [strftime]
    prints the fields of a date from the year 1000 on. *)
Definition zfill (width n : nat) : string :=
  let s := NilZero.string_of_uint (Nat.to_uint n) in
  zeros (width - String.length s) ++ s.

(** [strftime('%Y%m%d%H%M%S')] *)
Definition strftime_backup (d : datetime) : string :=
  zfill 4 (year d) ++ zfill 2 (month d) ++ zfill 2 (day d)
  ++ zfill 2 (hour d) ++ zfill 2 (minute d) ++ zfill 2 (second d).

(** [strftime('%Y-%m-%d %H:%M:%S')] *)
Definition strftime_log (d : datetime) : string :=
  zfill 4 (year d) ++ "-" ++ zfill 2 (month d) ++ "-" ++ zfill 2 (day d)
  ++ " " ++ zfill 2 (hour d) ++ ":" ++ zfill 2 (minute d) ++ ":"
  ++ zfill 2 (second d).

(** What a request meets outside the storage directory's contents. *)
Record Env := {
  (** [filepath.resolve().relative_to(BASE_DIR.resolve())] does not raise *)
  resolves_inside : string -> bool;
  (** the clock as read in [create_backup] and in [log_change] *)
  backup_now : datetime;
  log_now : datetime;
  (** [open(CHANGE_LOG, 'a')] and the write to it go through *)
  log_writable : bool }.

Inductive exn :=
  | HTTPException (status_code : nat) (detail : string)
  | OSError.

(** The error kinds of the specification, read off the status and detail
    the program raises. *)
Inductive ErrorKind :=
  | InvalidName | EmptyEntry | NotFound | IndexOutOfRange | DuplicateEntry
  | IOFailure | Unclassified.

Definition error_kind (e : exn) : ErrorKind :=
  match e with
  | OSError => IOFailure
  | HTTPException 404 _ => NotFound
  | HTTPException 400 d =>
      if String.eqb d "Only .txt files are allowed" then InvalidName
      else if String.eqb d "Invalid filename" then InvalidName
      else if String.eqb d "Invalid filename characters" then InvalidName
      else if String.eqb d "Invalid file path" then InvalidName
      else if String.eqb d "Empty entries are not allowed" then EmptyEntry
      else if String.eqb d "Invalid line index" then IndexOutOfRange
      else if String.eqb d "Entry already exists" then DuplicateEntry
      else Unclassified
  | HTTPException _ _ => Unclassified
  end.

(** *** Computations that may raise and that change the world *)

Inductive outcome (A : Type) :=
  | Return (a : A)
  | Raise (e : exn).
Arguments Return {A} a.
Arguments Raise {A} e.

Definition M (A : Type) : Type := World -> outcome A * World.

Definition ret {A} (a : A) : M A := fun w => (Return a, w).
Definition raise {A} (e : exn) : M A := fun w => (Raise e, w).
Definition bind {A B} (m : M A) (k : A -> M B) : M B :=
  fun w => match m w with
           | (Return a, w') => k a w'
           | (Raise e, w') => (Raise e, w')
           end.
(** A plain statement that changes the world and cannot raise. *)
Definition modify (f : World -> World) : M unit := fun w => (Return tt, f w).
(** Reading the world. *)
Definition gets {A} (f : World -> A) : M A := fun w => (Return (f w), w).
(** A pure check that may raise. *)
Definition lift {A} (o : outcome A) : M A := fun w => (o, w).

Notation "'let*' x := m 'in' k" := (bind m (fun x => k))
  (at level 10, x name, m at level 100, k at level 200).
Notation "m ;;; k" := (bind m (fun _ => k))
  (at level 100, k at level 200, right associativity).
(** [if cond: raise e] *)
Definition raise_if (cond : bool) (e : exn) : M unit :=
  if cond then raise e else ret tt.

(* ===================================================================== *)
(** ** Security and validation helpers *)
(* ===================================================================== *)

(** The character class [[a-zA-Z0-9_\-\.]]. *)
Definition name_char (c : ascii) : bool :=
  let n := nat_of_ascii c in
  ((97 <=? n)%nat && (n <=? 122)%nat) || ((65 <=? n)%nat && (n <=? 90)%nat)
  || ((48 <=? n)%nat && (n <=? 57)%nat)
  || Ascii.eqb c "_" || Ascii.eqb c "-" || Ascii.eqb c ".".

(** [re.match(r'^[a-zA-Z0-9_\-\.]+\.txt$', s)]: one or more class
    characters, then [.txt], then the end of the string; [$] also matches
    just before a final line feed. *)
Fixpoint re_match_name (s : string) : bool :=
  match s with
  | EmptyString => false
  | String c s' =>
      name_char c
      && (String.eqb s' ".txt" || String.eqb s' (".txt" ++ String LF EmptyString)
          || re_match_name s')
  end.

Definition BACKSLASH : string := String "092" EmptyString.

Section WithEnv.
Context (env : Env).

(** [validate_filename]: the path is returned as the file's name inside
    [BASE_DIR]. *)
Definition validate_filename (filename : string) : outcome string :=
  if negb (endswith filename ".txt") then
    Raise (HTTPException 400 "Only .txt files are allowed")
  else if contains ".." filename || contains "/" filename
          || contains BACKSLASH filename then
    Raise (HTTPException 400 "Invalid filename")
  else if negb (re_match_name filename) then
    Raise (HTTPException 400 "Invalid filename characters")
  else if negb (resolves_inside env filename) then
    Raise (HTTPException 400 "Invalid file path")
  else Return filename.

(** [validate_entry] *)
Definition validate_entry (filename value : string) : outcome string :=
  let value := strip value in
  if negb (truthy value) then
    Raise (HTTPException 400 "Empty entries are not allowed")
  else Return value.

(* ===================================================================== *)
(** ** Backup and logging *)
(* ===================================================================== *)

(** The name with its last suffix cut off, for the characters after the
    first one ([PurePath.stem]: a dot that ends the name starts no suffix). *)
Fixpoint cut_last_suffix (s : string) : string :=
  match s with
  | EmptyString => EmptyString
  | String c s' =>
      if Ascii.eqb c "." && truthy s' && negb (contains "." s') then EmptyString
      else String c (cut_last_suffix s')
  end.

(** [filepath.with_suffix(suffix)] *)
Definition with_suffix (name suffix : string) : string :=
  match name with
  | EmptyString => suffix
  | String c s' => String c (cut_last_suffix s') ++ suffix
  end.

(** [create_backup] *)
Definition create_backup (filepath : string) : M unit :=
  fun w =>
    if exists_ filepath w then
      let timestamp := strftime_backup (backup_now env) in
      let backup_path := with_suffix filepath (".txt.bak." ++ timestamp) in
      let content := read_text filepath w in
      (Return tt, write_text backup_path content w)
    else (Return tt, w).

(** The line [log_change] formats. *)
Definition log_entry (filename action old_value new_value : string) : string :=
  let timestamp := strftime_log (log_now env) in
  let nl := String LF EmptyString in
  if truthy old_value && truthy new_value then
    "[" ++ timestamp ++ "] [" ++ filename ++ "] [" ++ action ++ "] ["
        ++ old_value ++ " -> " ++ new_value ++ "]" ++ nl
  else if truthy old_value then
    "[" ++ timestamp ++ "] [" ++ filename ++ "] [" ++ action ++ "] ["
        ++ old_value ++ "]" ++ nl
  else if truthy new_value then
    "[" ++ timestamp ++ "] [" ++ filename ++ "] [" ++ action ++ "] ["
        ++ new_value ++ "]" ++ nl
  else
    "[" ++ timestamp ++ "] [" ++ filename ++ "] [" ++ action ++ "]" ++ nl.

(** [log_change]: the directory is made first; the append raises when the
    ledger cannot be opened or written. *)
Definition log_change (filename action old_value new_value : string) : M unit :=
  let entry := log_entry filename action old_value new_value in
  modify mkdir ;;;
  if log_writable env then
    modify (fun w =>
      write_text CHANGE_LOG (default EmptyString (dir w !! CHANGE_LOG) ++ entry) w)
  else raise OSError.

(* ===================================================================== *)
(** ** File operations *)
(* ===================================================================== *)

(** [read_file_lines] *)
Definition read_file_lines (filepath : string) (w : World) : list string :=
  if exists_ filepath w then
    map rstrip_eol
        (filter (fun line => truthy (strip line) = true)
                (readlines (read_text filepath w)))
  else [].

(** The text [write_file_lines] writes. *)
Definition file_text (lines : list string) : string :=
  join (String LF EmptyString) lines
  ++ (match lines with [] => EmptyString | _ :: _ => String LF EmptyString end).

(** [write_file_lines] *)
Definition write_file_lines (filepath : string) (lines : list string)
  : World -> World :=
  fun w => write_text filepath (file_text lines) (mkdir w).

(* ===================================================================== *)
(** ** API endpoints *)
(* ===================================================================== *)

Definition FILE_NOT_FOUND : exn := HTTPException 404 "File not found".
Definition INVALID_INDEX : exn := HTTPException 400 "Invalid line index".
Definition ALREADY_EXISTS : exn := HTTPException 400 "Entry already exists".

(** [list_files]: [sorted(BASE_DIR.glob("*.txt"))], then the exclusions. *)
Definition list_files (w : World) : list string :=
  match base_dir w with
  | None => []
  | Some d =>
      filter (fun name => negb (endswith name ".lock")
                          && negb (contains ".bak." name)
                          && negb (String.eqb name "change.log") = true)
             (merge_sort String.le
                (filter (fun name => endswith name ".txt" = true)
                        (elements (dom d))))
  end.

Record Entry := { entry_index : nat; entry_value : string }.
Record FileEntries := {
  fe_filename : string; fe_entries : list Entry; fe_count : nat }.

(** [get_file_entries] *)
Definition get_file_entries (filename : string) : M FileEntries :=
  let* filepath := lift (validate_filename filename) in
  let* present := gets (exists_ filepath) in
  raise_if (negb present) FILE_NOT_FOUND ;;;
  let* lines := gets (read_file_lines filepath) in
  let entries := imap (fun i line => {| entry_index := i; entry_value := line |})
                      lines in
  ret {| fe_filename := filename; fe_entries := entries;
         fe_count := length entries |}.

Record Added := { added_success : bool; added_index : Z; added_value : string }.

(** [add_entry] *)
Definition add_entry (filename raw : string) : M Added :=
  let* filepath := lift (validate_filename filename) in
  let* value := lift (validate_entry filename raw) in
  create_backup filepath ;;;
  let* lines := gets (read_file_lines filepath) in
  raise_if (mem value lines) ALREADY_EXISTS ;;;
  let lines := (lines ++ [value])%list in
  modify (write_file_lines filepath lines) ;;;
  log_change filename "ADD" EmptyString value ;;;
  ret {| added_success := true;
         added_index := Z.of_nat (length lines) - 1;
         added_value := value |}.

Record Updated := {
  updated_success : bool; updated_index : Z;
  updated_old_value : string; updated_new_value : string }.

(** [update_entry] *)
Definition update_entry (filename : string) (index : Z) (raw : string)
  : M Updated :=
  let* filepath := lift (validate_filename filename) in
  let* present := gets (exists_ filepath) in
  raise_if (negb present) FILE_NOT_FOUND ;;;
  let* value := lift (validate_entry filename raw) in
  create_backup filepath ;;;
  let* lines := gets (read_file_lines filepath) in
  raise_if ((index <? 0)%Z || (Z.of_nat (length lines) <=? index)%Z)
           INVALID_INDEX ;;;
  let i := Z.to_nat index in
  let old_value := default EmptyString (lines !! i) in
  raise_if (mem value lines
            && negb (bool_decide (Py.index value lines = Some i)))
           ALREADY_EXISTS ;;;
  let lines := <[i := value]> lines in
  modify (write_file_lines filepath lines) ;;;
  log_change filename "UPDATE" old_value value ;;;
  ret {| updated_success := true; updated_index := index;
         updated_old_value := old_value; updated_new_value := value |}.

Record Deleted := { deleted_success : bool; deleted_value : string }.

(** [delete_entry] *)
Definition delete_entry (filename : string) (index : Z) : M Deleted :=
  let* filepath := lift (validate_filename filename) in
  let* present := gets (exists_ filepath) in
  raise_if (negb present) FILE_NOT_FOUND ;;;
  create_backup filepath ;;;
  let* lines := gets (read_file_lines filepath) in
  raise_if ((index <? 0)%Z || (Z.of_nat (length lines) <=? index)%Z)
           INVALID_INDEX ;;;
  let i := Z.to_nat index in
  let deleted := default EmptyString (lines !! i) in
  let lines := delete i lines in
  modify (write_file_lines filepath lines) ;;;
  log_change filename "DELETE" deleted EmptyString ;;;
  ret {| deleted_success := true; deleted_value := deleted |}.

(** [export_file]: the body of the plain-text response.  The file was just
    seen to exist, so the lock hands out the open file and the closing
    [PlainTextResponse("")] of the source is not reached. *)
Definition export_file (filename : string) : M string :=
  let* filepath := lift (validate_filename filename) in
  let* present := gets (exists_ filepath) in
  raise_if (negb present) FILE_NOT_FOUND ;;;
  gets (read_text filepath).

End WithEnv.

(* ===================================================================== *)
(** ** Vocabulary of the statements *)
(* ===================================================================== *)

(** The character [c] occurs in [s]: Python's [c in s]. *)
Definition has_char (c : ascii) (s : string) : bool :=
  contains (String c EmptyString) s.

Definition NL : string := String LF EmptyString.

(** A line as the store means to keep it: not blank, on one line. *)
Definition nonblank (s : string) : Prop := truthy (strip s) = true.
Definition one_line (s : string) : Prop :=
  has_char LF s = false /\ has_char CR s = false.

(** The lines [readlines] yields for the pieces [split] yields: every
    piece but the last gets its line feed back, and an empty last piece is
    no line. *)
Fixpoint terminate (pieces : list string) : list string :=
  match pieces with
  | [] => []
  | [p] => if truthy p then [p] else []
  | p :: ps => (p ++ NL) :: terminate ps
  end.

(** The comprehension of [read_file_lines] on the text of the file. *)
Definition lines_of_text (text : string) : list string :=
  map rstrip_eol (filter (fun line => truthy (strip line) = true) (readlines text)).

(** Split on the line feed, blank pieces dropped. *)
Definition split_nonblank (text : string) : list string :=
  filter (fun l => truthy (strip l) = true) (split_lf text).

(** The content stored under a name, if the file is there. *)
Definition stored (name : string) (w : World) : option string := dir w !! name.

(** The writing tail shared by the three mutations: rewrite, then log. *)
Definition commit {A} (env : Env) (filename action old new : string) (lines : list string)
    (result : A) (w : World) : outcome A * World :=
  let w2 := write_file_lines filename lines w in
  if log_writable env then
    (Return result, snd (log_change env filename action old new w2))
  else (Raise OSError, mkdir w2).

(** No entry is empty after trimming and no two are equal after trimming. *)
Definition list_invariant (entries : list string) : Prop :=
  Forall (fun e => strip e <> "") entries /\ NoDup (map strip entries).

(** Every entry is stored in its trimmed form. *)
Definition stored_trimmed (entries : list string) : Prop :=
  Forall (fun e => strip e = e) entries.

(** The environment with the ledger made writable or not. *)
Definition with_ledger (writable : bool) (env : Env) : Env :=
  {| resolves_inside := resolves_inside env;
     backup_now := backup_now env;
     log_now := log_now env;
     log_writable := writable |}.

(** The path [create_backup] writes the copy to. *)
Definition backup_path (env : Env) (filepath : string) : string :=
  with_suffix filepath (".txt.bak." ++ strftime_backup (backup_now env)).

(** The content of the ledger [change.log], empty while it does not exist. *)
Definition ledger (w : World) : string := default "" (stored CHANGE_LOG w).

(** Every character of [s] satisfies [p]. *)
Fixpoint all_chars (p : ascii -> bool) (s : string) : bool :=
  match s with
  | EmptyString => true
  | String c s' => p c && all_chars p s'
  end.

(** The three ways a mutating endpoint ends on a world [w]: it raises
    before anything is written; it raises after the backup was made; or it
    goes on to rewrite the list and to log.  [payload] reads the action and
    the old and new value of the ledger line off the result. *)
Inductive mutation_run {A} (env : Env) (filename : string) (w : World)
    (payload : A -> string * (string * string)) : outcome A * World -> Prop :=
  | run_untouched e :
      error_kind e <> IOFailure ->
      mutation_run env filename w payload (Raise e, w)
  | run_refused e :
      validate_filename env filename = Return filename ->
      error_kind e <> IOFailure ->
      mutation_run env filename w payload
        (Raise e, snd (create_backup env filename w))
  | run_committed action old new lines result :
      validate_filename env filename = Return filename ->
      payload result = (action, (old, new)) ->
      mutation_run env filename w payload
        (commit env filename action old new lines result
           (snd (create_backup env filename w))).

(** Some add, update or delete on the list succeeds on [w] and leaves [w']. *)
Definition mutation_succeeds (env : Env) (filename : string) (w w' : World)
  : Prop :=
  (exists raw r, add_entry env filename raw w = (Return r, w'))
  \/ (exists index raw r,
        update_entry env filename index raw w = (Return r, w'))
  \/ (exists index r, delete_entry env filename index w = (Return r, w')).

(* ===================================================================== *)
(** ** Concrete worlds used in the examples *)
(* ===================================================================== *)

Module Examples.

(** Every name resolves inside the directory, the ledger can be written. *)
Definition plain_env : Env :=
  {| resolves_inside := fun _ => true;
     backup_now := {| year := 2024; month := 1; day := 2;
                      hour := 3; minute := 4; second := 5 |};
     log_now := {| year := 2024; month := 1; day := 2;
                   hour := 3; minute := 4; second := 6 |};
     log_writable := true |}.

(** The same, with a ledger that cannot be written. *)
Definition ledger_down_env : Env := with_ledger false plain_env.

(** No storage directory yet. *)
Definition no_dir : World := {| base_dir := None |}.

(** A directory holding one file. *)
Definition one_file (name content : string) : World :=
  {| base_dir := Some {[ name := content ]} |}.

(** The value [x], a line feed, [y]: trimming leaves it as it is. *)
Definition two_line_value : string := "x" ++ NL ++ "y".

End Examples.
Import Examples.

(* ===================================================================== *)
(** ** Facts about the string primitives *)
(* ===================================================================== *)

Module StrFacts.

Lemma has_char_cons c a s :
  has_char c (String a s) = Ascii.eqb c a || has_char c s.
Proof.
  unfold has_char. cbn [contains startswith].
  now rewrite andb_true_r.
Qed.

Lemma append_cons a (s t : string) : String a s ++ t = String a (s ++ t).
Proof. reflexivity. Qed.

Lemma has_char_app c s t :
  has_char c (s ++ t) = has_char c s || has_char c t.
Proof.
  induction s as [|a s IH].
  - reflexivity.
  - rewrite append_cons, !has_char_cons, IH. now rewrite orb_assoc.
Qed.

Lemma append_nil_r (s : string) : s ++ "" = s.
Proof.
  induction s as [|a s IH]; [reflexivity|].
  now rewrite append_cons, IH.
Qed.

Lemma append_assoc (s t u : string) : (s ++ t) ++ u = s ++ (t ++ u).
Proof.
  induction s as [|a s IH]; [reflexivity|].
  now rewrite !append_cons, IH.
Qed.

(** *** [rstrip] and [lstrip] *)

Section Strip.
Context (p : ascii -> bool).

Lemma rstrip_by_idem s : rstrip_by p (rstrip_by p s) = rstrip_by p s.
Proof.
  induction s as [|c s IH]; [reflexivity|].
  simpl. destruct (rstrip_by p s) as [|d r] eqn:E.
  - destruct (p c) eqn:Ec; simpl; [reflexivity | now rewrite Ec].
  - simpl in IH |- *. now rewrite IH.
Qed.

(** A stripped character at the very end is dropped. *)
Lemma rstrip_by_snoc s c :
  p c = true -> rstrip_by p (s ++ String c "") = rstrip_by p s.
Proof.
  intros Hc. induction s as [|a s IH].
  - simpl. now rewrite Hc.
  - rewrite append_cons. simpl. now rewrite IH.
Qed.

(** Nothing is dropped from a string that has none of the characters. *)
Lemma rstrip_by_none s :
  (forall c, has_char c s = true -> p c = false) -> rstrip_by p s = s.
Proof.
  induction s as [|a s IH]; intros H; [reflexivity|].
  simpl. rewrite IH.
  - destruct s; [|reflexivity].
    rewrite (H a); [reflexivity|].
    rewrite has_char_cons, Ascii.eqb_refl. reflexivity.
  - intros c Hc. apply H. rewrite has_char_cons, Hc. apply orb_true_r.
Qed.

Lemma rstrip_by_head a s :
  p a = false ->
  exists r, rstrip_by p (String a s) = String a r.
Proof.
  intros Ha. simpl. destruct (rstrip_by p s).
  - rewrite Ha. now exists "".
  - eexists. reflexivity.
Qed.

Lemma lstrip_by_head s :
  lstrip_by p s = "" \/ exists a r, lstrip_by p s = String a r /\ p a = false.
Proof.
  induction s as [|a s IH]; simpl; [now left|].
  destruct (p a) eqn:Ea; [exact IH|]. right. now exists a, s.
Qed.

Lemma lstrip_by_snoc s c :
  p c = true ->
  lstrip_by p (s ++ String c "")
  = match lstrip_by p s with "" => "" | t => t ++ String c "" end.
Proof.
  intros Hc. induction s as [|a s IH].
  - simpl. now rewrite Hc.
  - rewrite append_cons. simpl. destruct (p a); [exact IH | reflexivity].
Qed.

End Strip.

Lemma strip_idem s : strip (strip s) = strip s.
Proof.
  unfold strip.
  destruct (lstrip_by_head isspace s) as [E | (a & r & E & Ha)]; rewrite E.
  - reflexivity.
  - destruct (rstrip_by_head isspace a r Ha) as [r' E'].
    rewrite E'. simpl lstrip_by. rewrite Ha. rewrite <- E'.
    apply rstrip_by_idem.
Qed.

(** A trailing line feed does not change what [strip] leaves. *)
Lemma strip_snoc_LF s : strip (s ++ NL) = strip s.
Proof.
  unfold strip, NL. rewrite lstrip_by_snoc by reflexivity.
  destruct (lstrip_by isspace s) as [|a t]; [reflexivity|].
  now rewrite rstrip_by_snoc by reflexivity.
Qed.

Lemma rstrip_eol_one_line s : one_line s -> rstrip_eol s = s.
Proof.
  intros [Hlf Hcr]. apply rstrip_by_none. intros c Hc. unfold is_eol.
  destruct (Ascii.eqb_spec c LF) as [->|_]; [congruence|].
  destruct (Ascii.eqb_spec c CR) as [->|_]; [congruence|]. reflexivity.
Qed.

Lemma rstrip_eol_snoc_LF s : rstrip_eol (s ++ NL) = rstrip_eol s.
Proof. apply rstrip_by_snoc. reflexivity. Qed.

(** *** Lines: [readlines] against [split] *)

Lemma split_lf_nonempty s : split_lf s <> [].
Proof.
  destruct s as [|c s]; simpl; [discriminate|].
  destruct (Ascii.eqb c LF); [discriminate|].
  destruct (split_lf s); discriminate.
Qed.

Lemma readlines_split_lf s : readlines s = terminate (split_lf s).
Proof.
  induction s as [|c s IH]; [reflexivity|].
  simpl. pose proof (split_lf_nonempty s) as Hne.
  destruct (Ascii.eqb c LF).
  - rewrite IH. destruct (split_lf s) as [|q qs]; [congruence|]. reflexivity.
  - rewrite IH. destruct (split_lf s) as [|q qs]; [congruence|].
    destruct qs as [|q' qs'].
    + simpl. destruct q; reflexivity.
    + reflexivity.
Qed.

Lemma split_lf_no_LF s : Forall (fun p => has_char LF p = false) (split_lf s).
Proof.
  induction s as [|c s IH]; simpl.
  - repeat constructor.
  - destruct (Ascii.eqb_spec c LF) as [->|Hc].
    + constructor; [reflexivity | exact IH].
    + destruct (split_lf s) as [|q qs]; inversion IH; subst.
      * repeat constructor. rewrite has_char_cons.
        destruct (Ascii.eqb_spec LF c); [congruence | reflexivity].
      * constructor; [|assumption]. rewrite has_char_cons.
        destruct (Ascii.eqb_spec LF c); [congruence | assumption].
Qed.

Lemma split_lf_chars a s :
  has_char a s = false -> Forall (fun p => has_char a p = false) (split_lf s).
Proof.
  induction s as [|c s IH]; simpl; intros H.
  - repeat constructor.
  - rewrite has_char_cons in H. apply orb_false_iff in H as [Hc Hs].
    specialize (IH Hs).
    destruct (Ascii.eqb c LF).
    + constructor; [reflexivity | exact IH].
    + destruct (split_lf s) as [|q qs]; inversion IH; subst.
      * repeat constructor. now rewrite has_char_cons, Hc.
      * constructor; [|assumption]. rewrite has_char_cons, Hc. assumption.
Qed.

(** A piece on one line, and a line feed: the piece comes off first. *)
Lemma split_lf_line l rest :
  has_char LF l = false -> split_lf (l ++ NL ++ rest) = l :: split_lf rest.
Proof.
  induction l as [|c l IH]; intros H.
  - reflexivity.
  - rewrite has_char_cons in H. apply orb_false_iff in H as [Hc Hl].
    rewrite append_cons. simpl.
    destruct (Ascii.eqb_spec c LF) as [->|_]; [discriminate|].
    now rewrite IH.
Qed.

(** *** Newline translation *)

Lemma universal_newlines_no_CR_len n s :
  String.length s <= n -> has_char CR (universal_newlines s) = false.
Proof.
  revert s. induction n as [|n IH]; intros s Hn.
  - destruct s; [reflexivity | simpl in Hn; lia].
  - destruct s as [|c s]; [reflexivity|]. simpl in Hn.
    cbn [universal_newlines]. destruct (Ascii.eqb_spec c CR) as [->|Hc].
    + destruct s as [|d s]; [reflexivity|]. simpl in Hn. cbv beta match.
      destruct (Ascii.eqb d LF); rewrite has_char_cons;
        change (Ascii.eqb CR LF) with false; cbn [orb];
        apply IH; simpl; lia.
    + rewrite has_char_cons.
      destruct (Ascii.eqb_spec CR c); [congruence|]. apply IH. lia.
Qed.

Lemma universal_newlines_no_CR s : has_char CR (universal_newlines s) = false.
Proof. now apply (universal_newlines_no_CR_len (String.length s)). Qed.

(** Text without carriage returns reads as it is stored. *)
Lemma universal_newlines_id s :
  has_char CR s = false -> universal_newlines s = s.
Proof.
  induction s as [|c s IH]; intros H; [reflexivity|].
  rewrite has_char_cons in H. apply orb_false_iff in H as [Hc Hs].
  simpl. rewrite Ascii.eqb_sym, Hc. now rewrite IH.
Qed.

(** *** What is read back from a text *)

Lemma lines_of_terminate pieces :
  Forall one_line pieces ->
  map rstrip_eol (filter (fun line => truthy (strip line) = true) (terminate pieces))
  = filter (fun l => truthy (strip l) = true) pieces.
Proof.
  induction pieces as [|q qs IH]; intros H; [reflexivity|].
  inversion H as [|? ? Hq Hqs]; subst.
  destruct qs as [|q' qs'].
  - simpl. destruct q as [|c q]; [reflexivity|].
    cbn [truthy]. rewrite !filter_cons.
    destruct (decide (truthy (strip (String c q)) = true)); [|reflexivity].
    simpl. now rewrite rstrip_eol_one_line.
  - change (terminate (q :: q' :: qs')) with ((q ++ NL) :: terminate (q' :: qs')).
    rewrite !(filter_cons _ q), !(filter_cons _ (q ++ NL)), strip_snoc_LF.
    destruct (decide (truthy (strip q) = true)).
    + rewrite map_cons, IH by assumption.
      now rewrite rstrip_eol_snoc_LF, rstrip_eol_one_line.
    + now apply IH.
Qed.

(** Reading a text line by line is splitting it on the line feed, for a
    text as a file object hands it out. *)
Lemma lines_of_text_split text :
  has_char CR text = false -> lines_of_text text = split_nonblank text.
Proof.
  intros H. unfold lines_of_text, split_nonblank.
  rewrite readlines_split_lf. apply lines_of_terminate.
  pose proof (split_lf_no_LF text) as H1.
  pose proof (split_lf_chars CR text H) as H2.
  rewrite Forall_forall in H1, H2. apply Forall_forall.
  intros q Hq. split; auto.
Qed.

Lemma split_nonblank_props text :
  has_char CR text = false ->
  Forall (fun l => nonblank l /\ one_line l) (split_nonblank text).
Proof.
  intros H. unfold split_nonblank.
  pose proof (split_lf_no_LF text) as H1.
  pose proof (split_lf_chars CR text H) as H2.
  rewrite Forall_forall in H1, H2. apply Forall_forall.
  intros q Hq. apply list_elem_of_filter in Hq as [Hnb Hq].
  repeat split; auto.
Qed.

(** *** The text the store writes *)

Lemma file_text_cons l ls : file_text (l :: ls) = l ++ NL ++ file_text ls.
Proof.
  unfold file_text. destruct ls as [|l' ls'].
  - cbn [join]. now rewrite append_nil_r.
  - cbn [join]. now rewrite !append_assoc.
Qed.

Lemma file_text_no_CR ls :
  Forall one_line ls -> has_char CR (file_text ls) = false.
Proof.
  induction 1 as [|l ls [_ Hl] _ IH]; [reflexivity|].
  rewrite file_text_cons, !has_char_app, Hl, IH. reflexivity.
Qed.

Lemma split_lf_file_text ls :
  Forall one_line ls -> split_lf (file_text ls) = (ls ++ [""])%list.
Proof.
  induction 1 as [|l ls [Hl _] _ IH]; [reflexivity|].
  now rewrite file_text_cons, split_lf_line, IH.
Qed.

(** What the store writes reads back as the very lines written, when each
    is a non-blank single line. *)
Lemma lines_of_file_text ls :
  Forall (fun l => nonblank l /\ one_line l) ls ->
  lines_of_text (universal_newlines (file_text ls)) = ls.
Proof.
  intros H.
  assert (H1 : Forall one_line ls) by (eapply Forall_impl; [exact H | now intros ? [_ ?]]).
  rewrite universal_newlines_id by now apply file_text_no_CR.
  rewrite lines_of_text_split by now apply file_text_no_CR.
  unfold split_nonblank. rewrite split_lf_file_text by assumption.
  rewrite filter_app. cbn [filter]. rewrite filter_cons, filter_nil.
  destruct (decide (truthy (strip "") = true)) as [E|_]; [discriminate|].
  rewrite app_nil_r.
  clear H1. induction H as [|l ls [Hl _] _ IH]; [reflexivity|].
  rewrite filter_cons. destruct (decide (truthy (strip l) = true)); [|contradiction].
  now rewrite IH.
Qed.

End StrFacts.

Import StrFacts.

(* ===================================================================== *)
(** ** Facts about names and about the storage directory *)
(* ===================================================================== *)

Module StoreFacts.

Lemma endswith_app s suf : endswith s suf = true -> exists x, s = x ++ suf.
Proof.
  induction s as [|a s IH]; cbn [endswith]; intros H.
  - apply orb_true_iff in H as [H|H]; [|discriminate].
    apply String.eqb_eq in H. exists "". now subst.
  - apply orb_true_iff in H as [H|H].
    + apply String.eqb_eq in H. exists "". now subst.
    + destruct (IH H) as [x ->]. now exists (String a x).
Qed.

Lemma append_inj_l (y a b : string) : y ++ a = y ++ b -> a = b.
Proof.
  induction y as [|c y IH]; intros H; [exact H|].
  rewrite !append_cons in H. injection H as H. auto.
Qed.

Lemma cut_last_suffix_txt y : cut_last_suffix (y ++ ".txt") = y.
Proof.
  induction y as [|c y IH]; [reflexivity|].
  rewrite append_cons. cbn [cut_last_suffix].
  replace (contains "." (y ++ ".txt")) with true.
  - rewrite andb_false_r. now rewrite IH.
  - symmetry. change (has_char "." (y ++ ".txt") = true).
    rewrite has_char_app. apply orb_true_r.
Qed.

Section Names.
Context (env : Env).

Lemma validate_filename_Return filename p :
  validate_filename env filename = Return p -> p = filename.
Proof.
  unfold validate_filename.
  repeat match goal with |- context [if ?b then _ else _] => destruct b end;
    congruence.
Qed.

(** An accepted name is a non-empty stem followed by [.txt]. *)
Lemma valid_name_shape filename p :
  validate_filename env filename = Return p ->
  exists c y, filename = String c (y ++ ".txt").
Proof.
  unfold validate_filename.
  destruct (endswith filename ".txt") eqn:E1; [|discriminate]. cbn [negb].
  destruct (_ || _); [discriminate|].
  destruct (re_match_name filename) eqn:E3; [|discriminate]. intros _.
  destruct (endswith_app _ _ E1) as [x ->].
  destruct x as [|c y]; [discriminate E3|]. now exists c, y.
Qed.

Lemma valid_name_not_log filename p :
  validate_filename env filename = Return p -> filename <> CHANGE_LOG.
Proof.
  unfold validate_filename. intros H ->. discriminate H.
Qed.

(** The backup of an accepted name is another file. *)
Lemma backup_path_fresh filename p ts :
  validate_filename env filename = Return p ->
  with_suffix filename (".txt.bak." ++ ts) <> filename.
Proof.
  intros H. destruct (valid_name_shape _ _ H) as (c & y & ->).
  unfold with_suffix. rewrite cut_last_suffix_txt, append_cons.
  intros E. injection E as E. apply append_inj_l in E. discriminate E.
Qed.

End Names.

(** *** Reading and writing the directory *)

Lemma read_file_lines_stored name w :
  read_file_lines name w
  = match stored name w with
    | Some c => lines_of_text (universal_newlines c)
    | None => []
    end.
Proof.
  unfold read_file_lines, exists_, read_text, stored, lines_of_text.
  destruct (dir w !! name) as [c|] eqn:E.
  - rewrite bool_decide_eq_true_2 by eauto. reflexivity.
  - rewrite bool_decide_eq_false_2; [reflexivity|]. now intros [? ?].
Qed.

Lemma exists_stored name w :
  exists_ name w = bool_decide (is_Some (stored name w)).
Proof. reflexivity. Qed.

Lemma stored_write_text_eq path c w :
  base_dir w <> None -> stored path (write_text path c w) = Some c.
Proof.
  unfold stored, dir, write_text. destruct (base_dir w); [|congruence].
  intros _. simpl. apply lookup_insert_eq.
Qed.

Lemma stored_write_text_ne path c name w :
  path <> name -> stored name (write_text path c w) = stored name w.
Proof.
  unfold stored, dir, write_text. intros Hne.
  destruct (base_dir w); [|reflexivity].
  simpl. now apply lookup_insert_ne.
Qed.

Lemma stored_mkdir name w : stored name (mkdir w) = stored name w.
Proof. reflexivity. Qed.

Lemma stored_write_file_lines name ls w :
  stored name (write_file_lines name ls w) = Some (file_text ls).
Proof. unfold write_file_lines. now apply stored_write_text_eq. Qed.

(** What the store reads is always a list of non-blank single lines. *)
Lemma read_file_lines_props name w :
  Forall (fun l => nonblank l /\ one_line l) (read_file_lines name w).
Proof.
  rewrite read_file_lines_stored. destruct (stored name w) as [c|]; [|constructor].
  rewrite lines_of_text_split by apply universal_newlines_no_CR.
  apply split_nonblank_props, universal_newlines_no_CR.
Qed.

(** Rewriting a file and reading it again. *)
Lemma read_write_file_lines name ls w :
  Forall (fun l => nonblank l /\ one_line l) ls ->
  read_file_lines name (write_file_lines name ls w) = ls.
Proof.
  intros H. rewrite read_file_lines_stored, stored_write_file_lines.
  now apply lines_of_file_text.
Qed.

Section Steps.
Context (env : Env).

Lemma stored_create_backup filename p w :
  validate_filename env filename = Return p ->
  stored filename (snd (create_backup env filename w)) = stored filename w.
Proof.
  intros H. unfold create_backup. destruct (exists_ filename w); [|reflexivity].
  cbn [snd]. apply stored_write_text_ne. eapply backup_path_fresh, H.
Qed.

Lemma create_backup_returns filename w :
  fst (create_backup env filename w) = Return tt.
Proof. unfold create_backup. now destruct (exists_ filename w). Qed.

(** [log_change] on a world, spelled out. *)
Lemma log_change_run filename action old new w :
  log_change env filename action old new w
  = if log_writable env then
      (Return tt,
       write_text CHANGE_LOG
         (default "" (dir w !! CHANGE_LOG) ++ log_entry env filename action old new)
         (mkdir w))
    else (Raise OSError, mkdir w).
Proof.
  unfold log_change, bind, modify, raise. now destruct (log_writable env).
Qed.

Lemma stored_log_change name filename action old new w :
  name <> CHANGE_LOG ->
  stored name (snd (log_change env filename action old new w)) = stored name w.
Proof.
  intros Hne. rewrite log_change_run. destruct (log_writable env); cbn [snd].
  - rewrite stored_write_text_ne by congruence. apply stored_mkdir.
  - apply stored_mkdir.
Qed.

End Steps.

(** *** The endpoints, step by step *)

Section Runs.
Context (env : Env).

Lemma validate_entry_Return filename raw :
  truthy (strip raw) = true -> validate_entry filename raw = Return (strip raw).
Proof. unfold validate_entry. now intros ->. Qed.

Lemma validate_entry_Raise filename raw :
  truthy (strip raw) = false ->
  validate_entry filename raw
  = Raise (HTTPException 400 "Empty entries are not allowed").
Proof. unfold validate_entry. now intros ->. Qed.

Lemma read_after_backup filename w :
  validate_filename env filename = Return filename ->
  read_file_lines filename (snd (create_backup env filename w))
  = read_file_lines filename w.
Proof.
  intros H. rewrite !read_file_lines_stored.
  now rewrite (stored_create_backup env filename filename).
Qed.

Lemma add_entry_run filename raw w :
  validate_filename env filename = Return filename ->
  truthy (strip raw) = true ->
  let lines := read_file_lines filename w in
  let w1 := snd (create_backup env filename w) in
  add_entry env filename raw w
  = if mem (strip raw) lines then (Raise ALREADY_EXISTS, w1)
    else commit env filename "ADD" "" (strip raw) (lines ++ [strip raw])%list
           {| added_success := true;
              added_index := Z.of_nat (length (lines ++ [strip raw])%list) - 1;
              added_value := strip raw |} w1.
Proof.
  intros Hv Hr. cbv zeta.
  unfold add_entry, bind, lift, gets, raise_if, modify, ret, raise.
  rewrite Hv, (validate_entry_Return _ _ Hr).
  pose proof (create_backup_returns env filename w) as Hb.
  pose proof (read_after_backup filename w Hv) as Hl.
  destruct (create_backup env filename w) as [o w1]. cbn [fst snd] in *. subst o.
  rewrite Hl. destruct (mem (strip raw) (read_file_lines filename w)); [reflexivity|].
  unfold commit. rewrite log_change_run.
  now destruct (log_writable env).
Qed.

Lemma update_entry_run filename index raw w :
  validate_filename env filename = Return filename ->
  is_Some (stored filename w) ->
  truthy (strip raw) = true ->
  let lines := read_file_lines filename w in
  let w1 := snd (create_backup env filename w) in
  let i := Z.to_nat index in
  let old_value := default "" (lines !! i) in
  update_entry env filename index raw w
  = if ((index <? 0)%Z || (Z.of_nat (length lines) <=? index)%Z) then
      (Raise INVALID_INDEX, w1)
    else if mem (strip raw) lines
            && negb (bool_decide (Py.index (strip raw) lines = Some i)) then
      (Raise ALREADY_EXISTS, w1)
    else commit env filename "UPDATE" old_value (strip raw) (<[i := strip raw]> lines)
           {| updated_success := true; updated_index := index;
              updated_old_value := old_value;
              updated_new_value := strip raw |} w1.
Proof.
  intros Hv He Hr. cbv zeta.
  unfold update_entry, bind, lift, gets, raise_if, modify, ret, raise.
  rewrite Hv, exists_stored, bool_decide_eq_true_2 by assumption. cbn [negb].
  rewrite (validate_entry_Return _ _ Hr).
  pose proof (create_backup_returns env filename w) as Hb.
  pose proof (read_after_backup filename w Hv) as Hl.
  destruct (create_backup env filename w) as [o w1]. cbn [fst snd] in *. subst o.
  rewrite Hl. destruct (_ || _); [reflexivity|].
  destruct (_ && _); [reflexivity|].
  unfold commit. rewrite log_change_run.
  now destruct (log_writable env).
Qed.

Lemma delete_entry_run filename index w :
  validate_filename env filename = Return filename ->
  is_Some (stored filename w) ->
  let lines := read_file_lines filename w in
  let w1 := snd (create_backup env filename w) in
  let i := Z.to_nat index in
  let deleted := default "" (lines !! i) in
  delete_entry env filename index w
  = if ((index <? 0)%Z || (Z.of_nat (length lines) <=? index)%Z) then
      (Raise INVALID_INDEX, w1)
    else commit env filename "DELETE" deleted "" (delete i lines)
           {| deleted_success := true; deleted_value := deleted |} w1.
Proof.
  intros Hv He. cbv zeta.
  unfold delete_entry, bind, lift, gets, raise_if, modify, ret, raise.
  rewrite Hv, exists_stored, bool_decide_eq_true_2 by assumption. cbn [negb].
  pose proof (create_backup_returns env filename w) as Hb.
  pose proof (read_after_backup filename w Hv) as Hl.
  destruct (create_backup env filename w) as [o w1]. cbn [fst snd] in *. subst o.
  rewrite Hl. destruct (_ || _); [reflexivity|].
  unfold commit. rewrite log_change_run.
  now destruct (log_writable env).
Qed.

(** A name that is not accepted stops every endpoint before it touches
    anything. *)
Lemma rejected_name filename e w :
  validate_filename env filename = Raise e ->
  get_file_entries env filename w = (Raise e, w)
  /\ (forall raw, add_entry env filename raw w = (Raise e, w))
  /\ (forall index raw, update_entry env filename index raw w = (Raise e, w))
  /\ (forall index, delete_entry env filename index w = (Raise e, w))
  /\ export_file env filename w = (Raise e, w).
Proof.
  intros H.
  unfold get_file_entries, add_entry, update_entry, delete_entry, export_file,
    bind, lift.
  rewrite H. repeat split; reflexivity.
Qed.

(** A missing list stops the endpoints that need one. *)
Lemma missing_list filename w :
  validate_filename env filename = Return filename ->
  stored filename w = None ->
  get_file_entries env filename w = (Raise FILE_NOT_FOUND, w)
  /\ (forall index raw,
        update_entry env filename index raw w = (Raise FILE_NOT_FOUND, w))
  /\ (forall index, delete_entry env filename index w = (Raise FILE_NOT_FOUND, w))
  /\ export_file env filename w = (Raise FILE_NOT_FOUND, w).
Proof.
  intros Hv Hs.
  unfold get_file_entries, update_entry, delete_entry, export_file,
    bind, lift, gets, raise_if, raise.
  rewrite Hv, exists_stored, Hs.
  rewrite bool_decide_eq_false_2 by (now intros [? ?]).
  repeat split; reflexivity.
Qed.

(** What a committed rewrite leaves under the list's name. *)
Lemma commit_stored {A} filename action old new lines (result : A) w :
  filename <> CHANGE_LOG ->
  stored filename (snd (commit env filename action old new lines result w))
  = Some (file_text lines).
Proof.
  intros Hne. unfold commit. destruct (log_writable env); cbn [snd].
  - rewrite stored_log_change by assumption. apply stored_write_file_lines.
  - rewrite stored_mkdir. apply stored_write_file_lines.
Qed.

Lemma commit_Return {A} filename action old new lines (result r : A) w w' :
  commit env filename action old new lines result w = (Return r, w') ->
  log_writable env = true /\ r = result.
Proof.
  unfold commit. destruct (log_writable env); intros H; [|discriminate].
  injection H as <- _. auto.
Qed.

(** What a successful run tells about its inputs. *)
Lemma valid_or_rejected filename :
  validate_filename env filename = Return filename
  \/ exists e, validate_filename env filename = Raise e.
Proof.
  destruct (validate_filename env filename) as [p|e] eqn:E; [left|right; eauto].
  now rewrite (validate_filename_Return env filename p E).
Qed.

Lemma add_entry_Return_inv filename raw w r w' :
  add_entry env filename raw w = (Return r, w') ->
  validate_filename env filename = Return filename
  /\ truthy (strip raw) = true.
Proof.
  intros H. destruct (valid_or_rejected filename) as [Hv|[e He]].
  - split; [exact Hv|]. destruct (truthy (strip raw)) eqn:Hr; [reflexivity|].
    unfold add_entry, bind, lift in H.
    rewrite Hv, (validate_entry_Raise _ _ Hr) in H. discriminate H.
  - destruct (rejected_name filename e w He) as (_ & Ha & _).
    rewrite Ha in H. discriminate H.
Qed.

Lemma update_entry_Return_inv filename index raw w r w' :
  update_entry env filename index raw w = (Return r, w') ->
  validate_filename env filename = Return filename
  /\ is_Some (stored filename w)
  /\ truthy (strip raw) = true.
Proof.
  intros H. destruct (valid_or_rejected filename) as [Hv|[e He]].
  - split; [exact Hv|]. destruct (stored filename w) as [c|] eqn:Hs.
    + split; [eauto|]. destruct (truthy (strip raw)) eqn:Hr; [reflexivity|].
      unfold update_entry, bind, lift, gets, raise_if, ret in H.
      rewrite Hv, exists_stored, Hs, bool_decide_eq_true_2 in H by eauto.
      cbn [negb] in H. rewrite (validate_entry_Raise _ _ Hr) in H.
      discriminate H.
    + destruct (missing_list filename w Hv Hs) as (_ & Hu & _).
      rewrite Hu in H. discriminate H.
  - destruct (rejected_name filename e w He) as (_ & _ & Hu & _).
    rewrite Hu in H. discriminate H.
Qed.

Lemma delete_entry_Return_inv filename index w r w' :
  delete_entry env filename index w = (Return r, w') ->
  validate_filename env filename = Return filename
  /\ is_Some (stored filename w).
Proof.
  intros H. destruct (valid_or_rejected filename) as [Hv|[e He]].
  - split; [exact Hv|]. destruct (stored filename w) as [c|] eqn:Hs; [eauto|].
    destruct (missing_list filename w Hv Hs) as (_ & _ & Hd & _).
    rewrite Hd in H. discriminate H.
  - destruct (rejected_name filename e w He) as (_ & _ & _ & Hd & _).
    rewrite Hd in H. discriminate H.
Qed.

End Runs.

End StoreFacts.

Import StoreFacts.

(* ===================================================================== *)
(** ** The rejection of bad names (C9) and the order of checks (C7, C5) *)
(* ===================================================================== *)

(** C9.  A name that lacks the [.txt] suffix, or contains [..], a slash or
    a backslash, is rejected by every endpoint that takes a name with an
    error of kind [InvalidName], and the world (directory, files, backups,
    ledger) is exactly what it was. *)
Theorem C9_bad_name_rejected_without_effect env filename w :
  negb (endswith filename ".txt") || contains ".." filename
  || contains "/" filename || contains BACKSLASH filename = true ->
  exists e,
    error_kind e = InvalidName
    /\ get_file_entries env filename w = (Raise e, w)
    /\ (forall raw, add_entry env filename raw w = (Raise e, w))
    /\ (forall index raw, update_entry env filename index raw w = (Raise e, w))
    /\ (forall index, delete_entry env filename index w = (Raise e, w))
    /\ export_file env filename w = (Raise e, w).
Proof.
  intros H.
  assert (Hv : exists e, error_kind e = InvalidName
                         /\ validate_filename env filename = Raise e).
  { unfold validate_filename.
    destruct (endswith filename ".txt"); cbn [negb orb] in *.
    - rewrite H. eexists; split; [|reflexivity]; reflexivity.
    - eexists; split; [|reflexivity]; reflexivity. }
  destruct Hv as (e & Hk & Hv). exists e. split; [exact Hk|].
  now apply rejected_name.
Qed.

Lemma C9_witness :
  (exists e, error_kind e = InvalidName
     /\ add_entry plain_env "../etc/passwd.txt" "10.0.0.1" no_dir = (Raise e, no_dir))
  /\ (exists e, error_kind e = InvalidName
     /\ add_entry plain_env "sub/dir.txt" "10.0.0.1" no_dir = (Raise e, no_dir))
  /\ (exists e, error_kind e = InvalidName
     /\ add_entry plain_env "foo.log" "10.0.0.1" no_dir = (Raise e, no_dir)).
Proof.
  repeat split.
  - destruct (C9_bad_name_rejected_without_effect plain_env "../etc/passwd.txt"
                no_dir eq_refl) as (e & Hk & _ & Ha & _).
    exists e. split; [exact Hk | apply Ha].
  - destruct (C9_bad_name_rejected_without_effect plain_env "sub/dir.txt"
                no_dir eq_refl) as (e & Hk & _ & Ha & _).
    exists e. split; [exact Hk | apply Ha].
  - destruct (C9_bad_name_rejected_without_effect plain_env "foo.log"
                no_dir eq_refl) as (e & Hk & _ & Ha & _).
    exists e. split; [exact Hk | apply Ha].
Defined.

(** C7, as stated, fails: on a list that does not exist, an update with a
    value that is empty after trimming is answered with [NotFound], not
    with [EmptyEntry]. *)
Lemma C7_counterexample :
  stored "a.txt" no_dir = None
  /\ strip "   " = ""
  /\ exists e,
       update_entry plain_env "a.txt" 0 "   " no_dir = (Raise e, no_dir)
       /\ error_kind e = NotFound
       /\ error_kind e <> EmptyEntry.
Proof.
  split; [reflexivity|]. split; [reflexivity|].
  exists FILE_NOT_FOUND. repeat split. discriminate.
Qed.

(** C7, amended.  [update_entry] checks the name first, then that the list
    exists, and only then the value: with an accepted name, an absent list
    gives [NotFound] whatever the value is, and a value that is empty after
    trimming gives [EmptyEntry] only when the list exists; in both cases
    nothing is changed. *)
Theorem C7_update_check_order env filename index raw w :
  validate_filename env filename = Return filename ->
  (stored filename w = None ->
     update_entry env filename index raw w = (Raise FILE_NOT_FOUND, w)
     /\ error_kind FILE_NOT_FOUND = NotFound)
  /\ (is_Some (stored filename w) -> strip raw = "" ->
      exists e, update_entry env filename index raw w = (Raise e, w)
                /\ error_kind e = EmptyEntry).
Proof.
  intros Hv. split.
  - intros Hs. split; [|reflexivity].
    now apply (missing_list env filename w Hv Hs).
  - intros Hs Hr. exists (HTTPException 400 "Empty entries are not allowed").
    split; [|reflexivity].
    unfold update_entry, bind, lift, gets, raise_if, raise, ret.
    rewrite Hv, exists_stored, bool_decide_eq_true_2 by assumption.
    cbn [negb]. rewrite validate_entry_Raise by now rewrite Hr.
    reflexivity.
Qed.

Lemma C7_witness :
  (update_entry plain_env "a.txt" 0 "   " no_dir = (Raise FILE_NOT_FOUND, no_dir)
   /\ error_kind FILE_NOT_FOUND = NotFound)
  /\ exists e,
       update_entry plain_env "a.txt" 0 "   " (one_file "a.txt" "k") 
       = (Raise e, one_file "a.txt" "k")
       /\ error_kind e = EmptyEntry.
Proof.
  split.
  - apply (C7_update_check_order plain_env "a.txt" 0 "   " no_dir eq_refl).
    reflexivity.
  - apply (C7_update_check_order plain_env "a.txt" 0 "   "
             (one_file "a.txt" "k") eq_refl).
    + exists "k". reflexivity.
    + reflexivity.
Defined.

(** C5, as stated, fails: exporting an accepted name whose file is absent
    raises [NotFound]; it does not return empty content. *)
Lemma C5_counterexample :
  validate_filename plain_env "a.txt" = Return "a.txt"
  /\ stored "a.txt" no_dir = None
  /\ export_file plain_env "a.txt" no_dir = (Raise FILE_NOT_FOUND, no_dir)
  /\ error_kind FILE_NOT_FOUND = NotFound.
Proof. repeat split. Qed.

(** C5, amended.  For an accepted name, [export_file] raises [NotFound]
    when the file is absent, and for an existing file whose content has no
    carriage return it returns that content as it is, blank lines and
    surrounding blanks included; the world is not changed. *)
Theorem C5_export env filename w :
  validate_filename env filename = Return filename ->
  (stored filename w = None ->
     export_file env filename w = (Raise FILE_NOT_FOUND, w))
  /\ (forall content, stored filename w = Some content ->
        has_char CR content = false ->
        export_file env filename w = (Return content, w)).
Proof.
  intros Hv. split.
  - intros Hs. now apply (missing_list env filename w Hv Hs).
  - intros content Hs Hcr.
    unfold export_file, bind, lift, gets, raise_if, raise, ret.
    rewrite Hv, exists_stored, Hs, bool_decide_eq_true_2 by eauto.
    cbn [negb]. unfold read_text. unfold stored in Hs. rewrite Hs.
    cbn [default]. now rewrite universal_newlines_id.
Qed.

Lemma C5_witness :
  export_file plain_env "a.txt" no_dir = (Raise FILE_NOT_FOUND, no_dir)
  /\ export_file plain_env "a.txt" (one_file "a.txt" ("  k " ++ NL ++ NL ++ "m"))
     = (Return ("  k " ++ NL ++ NL ++ "m"),
        one_file "a.txt" ("  k " ++ NL ++ NL ++ "m")).
Proof.
  split.
  - apply (C5_export plain_env "a.txt" no_dir eq_refl). reflexivity.
  - apply (C5_export plain_env "a.txt"
             (one_file "a.txt" ("  k " ++ NL ++ NL ++ "m")) eq_refl).
    + reflexivity.
    + reflexivity.
Defined.

(* ===================================================================== *)
(** ** A failing ledger (C6) *)
(* ===================================================================== *)

Lemma commit_ledger_down {A} env filename action old new lines (result : A) w :
  filename <> CHANGE_LOG ->
  exists w2,
    commit (with_ledger false env) filename action old new lines result w
    = (Raise OSError, w2)
    /\ stored filename w2
       = stored filename (snd (commit env filename action old new lines result w)).
Proof.
  intros Hne. eexists. split; [reflexivity|].
  rewrite commit_stored by assumption.
  rewrite stored_mkdir. apply stored_write_file_lines.
Qed.

(** From a committed run [H], the run of the same tail with the ledger down. *)
Ltac ledger_down H Hne :=
  match type of H with
  | commit ?env ?f ?a ?o ?n ?ls ?res ?w0 = (Return _, _) =>
      let w2 := fresh "w2" in
      let E1 := fresh "E1" in
      let E2 := fresh "E2" in
      destruct (commit_ledger_down env f a o n ls res w0 Hne) as (w2 & E1 & E2);
      exists w2; split; [exact E1 | rewrite E2, H; reflexivity]
  end.

(** C6, as stated, fails: when the ledger cannot be written, [add_entry]
    does not report success; the exception of the ledger write is the
    request's outcome, although the list file has been rewritten. *)
Lemma C6_counterexample :
  exists w',
    add_entry ledger_down_env "a.txt" "1.2.3.4" no_dir = (Raise OSError, w')
    /\ error_kind OSError = IOFailure
    /\ read_file_lines "a.txt" no_dir = []
    /\ read_file_lines "a.txt" w' = ["1.2.3.4"].
Proof.
  exists (snd (add_entry ledger_down_env "a.txt" "1.2.3.4" no_dir)).
  repeat split; vm_compute; reflexivity.
Qed.

(** C6, amended.  Take any add, update or delete that succeeds while the
    ledger can be written.  The same request with a ledger that cannot be
    written ends with the ledger's [OSError] as its own failure; the list
    file is nevertheless left exactly as the successful request leaves it:
    the change stands and is not rolled back. *)
Theorem C6_ledger_failure_fails_request env filename w :
  (forall raw r w1,
     add_entry env filename raw w = (Return r, w1) ->
     exists w2,
       add_entry (with_ledger false env) filename raw w = (Raise OSError, w2)
       /\ stored filename w2 = stored filename w1)
  /\ (forall index raw r w1,
     update_entry env filename index raw w = (Return r, w1) ->
     exists w2,
       update_entry (with_ledger false env) filename index raw w
       = (Raise OSError, w2)
       /\ stored filename w2 = stored filename w1)
  /\ (forall index r w1,
     delete_entry env filename index w = (Return r, w1) ->
     exists w2,
       delete_entry (with_ledger false env) filename index w
       = (Raise OSError, w2)
       /\ stored filename w2 = stored filename w1).
Proof.
  repeat split.
  - intros raw r w1 H.
    destruct (add_entry_Return_inv env _ _ _ _ _ H) as (Hv & Hr).
    pose proof (valid_name_not_log env _ _ Hv) as Hne.
    rewrite (add_entry_run env filename raw w Hv Hr) in H.
    rewrite (add_entry_run (with_ledger false env) filename raw w Hv Hr).
    change (create_backup (with_ledger false env)) with (create_backup env).
    destruct (mem (strip raw) (read_file_lines filename w)); [discriminate H|].
    ledger_down H Hne.
  - intros index raw r w1 H.
    destruct (update_entry_Return_inv env _ _ _ _ _ _ H) as (Hv & Hs & Hr).
    pose proof (valid_name_not_log env _ _ Hv) as Hne.
    rewrite (update_entry_run env filename index raw w Hv Hs Hr) in H.
    rewrite (update_entry_run (with_ledger false env) filename index raw w Hv Hs Hr).
    change (create_backup (with_ledger false env)) with (create_backup env).
    destruct (_ || _); [discriminate H|].
    destruct (_ && _); [discriminate H|].
    ledger_down H Hne.
  - intros index r w1 H.
    destruct (delete_entry_Return_inv env _ _ _ _ _ H) as (Hv & Hs).
    pose proof (valid_name_not_log env _ _ Hv) as Hne.
    rewrite (delete_entry_run env filename index w Hv Hs) in H.
    rewrite (delete_entry_run (with_ledger false env) filename index w Hv Hs).
    change (create_backup (with_ledger false env)) with (create_backup env).
    destruct (_ || _); [discriminate H|].
    ledger_down H Hne.
Qed.

Lemma C6_witness :
  exists w2,
    add_entry (with_ledger false plain_env) "a.txt" "1.2.3.4" no_dir
    = (Raise OSError, w2)
    /\ stored "a.txt" w2
       = stored "a.txt" (snd (add_entry plain_env "a.txt" "1.2.3.4" no_dir)).
Proof.
  apply (proj1 (C6_ledger_failure_fails_request plain_env "a.txt" no_dir)
           "1.2.3.4"
           (match fst (add_entry plain_env "a.txt" "1.2.3.4" no_dir) with
            | Return r => r
            | Raise _ => {| added_success := false; added_index := 0;
                            added_value := "" |}
            end)).
  vm_compute. reflexivity.
Defined.

(* ===================================================================== *)
(** ** The listing and names that look like backups (C10) *)
(* ===================================================================== *)

Lemma list_files_hides_bak name w :
  contains ".bak." name = true -> name ∉ list_files w.
Proof.
  intros H. unfold list_files. destruct (base_dir w); [|apply not_elem_of_nil].
  intros Hin. apply list_elem_of_filter in Hin as [Hc _].
  rewrite H in Hc. cbn [negb] in Hc. rewrite andb_false_r in Hc.
  discriminate Hc.
Qed.

(** C10.  The name [a.bak.b.txt] is accepted by the path validator and
    contains [.bak.]; a list is created under it by [add_entry] and read
    back by [get_file_entries]; yet [list_files] returns it in no world, and
    in the world where it stands next to [a.txt] the listing is [a.txt]
    alone. *)
Theorem C10_bak_named_list_is_hidden :
  exists name,
    validate_filename plain_env name = Return name
    /\ contains ".bak." name = true
    /\ (exists r w1 fe,
          add_entry plain_env name "1.2.3.4" no_dir = (Return r, w1)
          /\ get_file_entries plain_env name w1 = (Return fe, w1)
          /\ fe_entries fe = [{| entry_index := 0; entry_value := "1.2.3.4" |}]
          /\ list_files (snd (add_entry plain_env "a.txt" "10.0.0.1" w1))
             = ["a.txt"])
    /\ forall w, name ∉ list_files w.
Proof.
  exists "a.bak.b.txt". split; [reflexivity|]. split; [reflexivity|]. split.
  - exists {| added_success := true; added_index := 0; added_value := "1.2.3.4" |},
      (snd (add_entry plain_env "a.bak.b.txt" "1.2.3.4" no_dir)).
    eexists. split; [vm_compute; reflexivity|].
    split; [vm_compute; reflexivity|].
    split; vm_compute; reflexivity.
  - intros w. now apply list_files_hides_bak.
Qed.

(* ===================================================================== *)
(** ** Values that span several lines (C2, C3) *)
(* ===================================================================== *)

(** For a value that is a single line the store does append one entry:
    [add_entry] refuses a value already in the list and leaves the list as
    it was, and otherwise answers with the prior length as index and the
    list is the old one with the value at its end. *)
Lemma add_entry_single_line env filename raw w :
  validate_filename env filename = Return filename ->
  truthy (strip raw) = true ->
  one_line (strip raw) ->
  log_writable env = true ->
  let old := read_file_lines filename w in
  (mem (strip raw) old = true ->
   exists w', add_entry env filename raw w = (Raise ALREADY_EXISTS, w')
              /\ read_file_lines filename w' = old)
  /\ (mem (strip raw) old = false ->
      exists r w', add_entry env filename raw w = (Return r, w')
                   /\ added_index r = Z.of_nat (length old)
                   /\ read_file_lines filename w' = (old ++ [strip raw])%list).
Proof.
  intros Hv Hr Hol Hlog. cbv zeta.
  pose proof (valid_name_not_log env _ _ Hv) as Hne.
  rewrite (add_entry_run env filename raw w Hv Hr). split; intros Hmem; rewrite Hmem.
  - eexists. split; [reflexivity|]. now apply read_after_backup.
  - unfold commit at 1. rewrite Hlog. do 2 eexists. split; [reflexivity|]. split.
    + cbn [added_index]. rewrite length_app. cbn [length]. lia.
    + rewrite read_file_lines_stored, stored_log_change by assumption.
      rewrite stored_write_file_lines. apply lines_of_file_text.
      apply Forall_app. split; [apply read_file_lines_props|].
      apply Forall_singleton. split; [|exact Hol].
      unfold nonblank. now rewrite strip_idem.
Qed.

(** C2, at a failing input.  On the empty store, [add_entry] accepts the
    value [x\ny], which equals no existing entry, and answers with index 0,
    the prior length; but the list read afterwards has two entries, [x] and
    [y], so its length went from 0 to 2 and index 0 does not hold the
    value that was added. *)
Theorem C2_add_two_line_value :
  strip two_line_value = two_line_value
  /\ read_file_lines "a.txt" no_dir = []
  /\ fst (add_entry plain_env "a.txt" two_line_value no_dir)
     = Return {| added_success := true; added_index := 0;
                 added_value := two_line_value |}
  /\ read_file_lines "a.txt"
       (snd (add_entry plain_env "a.txt" two_line_value no_dir))
     = ["x"; "y"]
  /\ stored "a.txt" (snd (add_entry plain_env "a.txt" two_line_value no_dir))
     = Some ("x" ++ NL ++ "y" ++ NL).
Proof. repeat split; vm_compute; reflexivity. Qed.

(** C3, at a failing input.  On the list [k; m], [update_entry] at index 0
    with the value [x\ny], which equals no entry, succeeds and reports the
    new value [x\ny]; the list read afterwards is [x; y; m]: index 0 holds
    [x], not the trimmed value, and index 1, which held [m], now holds
    [y]. *)
Theorem C3_update_two_line_value :
  let w := one_file "a.txt" ("k" ++ NL ++ "m" ++ NL) in
  let run := update_entry plain_env "a.txt" 0 two_line_value w in
  read_file_lines "a.txt" w = ["k"; "m"]
  /\ fst run = Return {| updated_success := true; updated_index := 0;
                         updated_old_value := "k";
                         updated_new_value := two_line_value |}
  /\ read_file_lines "a.txt" (snd run) = ["x"; "y"; "m"]
  /\ read_file_lines "a.txt" (snd run) !! 0%nat <> Some (strip two_line_value)
  /\ read_file_lines "a.txt" (snd run) !! 1%nat
     <> read_file_lines "a.txt" w !! 1%nat.
Proof.
  cbv zeta. repeat split; try (vm_compute; reflexivity);
    vm_compute; discriminate.
Qed.

(* ===================================================================== *)
(** ** Reading a list after a mutation *)
(* ===================================================================== *)

Section AfterCommit.
Context (env : Env).

(** The list read after a committed rewrite, in terms of what was written. *)
Lemma read_after_commit {A} filename action old new lines (result r : A) w w' :
  filename <> CHANGE_LOG ->
  commit env filename action old new lines result w = (Return r, w') ->
  r = result
  /\ stored filename w' = Some (file_text lines)
  /\ read_file_lines filename w'
     = split_nonblank (universal_newlines (file_text lines)).
Proof.
  intros Hne H. destruct (commit_Return env _ _ _ _ _ _ _ _ _ H) as [_ ->].
  pose proof (commit_stored env filename action old new lines result w Hne) as Hs.
  rewrite H in Hs. cbn [snd] in Hs. repeat split; [exact Hs|].
  rewrite read_file_lines_stored, Hs.
  apply lines_of_text_split, universal_newlines_no_CR.
Qed.

Lemma read_after_commit_clean {A} filename action old new lines (result r : A) w w' :
  filename <> CHANGE_LOG ->
  Forall (fun l => nonblank l /\ one_line l) lines ->
  commit env filename action old new lines result w = (Return r, w') ->
  read_file_lines filename w' = lines.
Proof.
  intros Hne Hc H.
  destruct (read_after_commit _ _ _ _ _ _ _ _ _ Hne H) as (_ & Hs & _).
  rewrite read_file_lines_stored, Hs. now apply lines_of_file_text.
Qed.

(** The index test of [update_entry] and [delete_entry]. *)
Lemma index_in_range (index : Z) (lines : list string) :
  ((index <? 0)%Z || (Z.of_nat (length lines) <=? index)%Z) = false ->
  index = Z.of_nat (Z.to_nat index)
  /\ exists v, lines !! Z.to_nat index = Some v.
Proof.
  intros H. apply orb_false_iff in H as [H1 H2].
  apply Z.ltb_ge in H1. apply Z.leb_gt in H2. split; [lia|].
  apply lookup_lt_is_Some. lia.
Qed.

(** A successful delete, spelled out. *)
Lemma delete_entry_Return filename index w r w' :
  delete_entry env filename index w = (Return r, w') ->
  exists v,
    index = Z.of_nat (Z.to_nat index)
    /\ read_file_lines filename w !! Z.to_nat index = Some v
    /\ deleted_value r = v
    /\ read_file_lines filename w'
       = delete (Z.to_nat index) (read_file_lines filename w).
Proof.
  intros H. destruct (delete_entry_Return_inv env _ _ _ _ _ H) as (Hv & Hs).
  pose proof (valid_name_not_log env _ _ Hv) as Hne.
  rewrite (delete_entry_run env filename index w Hv Hs) in H.
  destruct (_ || _) eqn:Hi; [discriminate H|].
  destruct (index_in_range _ _ Hi) as (Hidx & v & Hl).
  exists v. split; [exact Hidx|]. split; [exact Hl|].
  destruct (read_after_commit _ _ _ _ _ _ _ _ _ Hne H) as (-> & _ & _).
  split; [cbn [deleted_value]; now rewrite Hl|].
  eapply read_after_commit_clean; [exact Hne| |exact H].
  apply Forall_delete, read_file_lines_props.
Qed.

End AfterCommit.

(** For a value that is a single line a successful [update_entry] does what
    it reports: the list read afterwards holds the trimmed value at the
    index and its former entries everywhere else. *)
Lemma update_entry_single_line env filename index raw w r w' :
  one_line (strip raw) ->
  update_entry env filename index raw w = (Return r, w') ->
  let old := read_file_lines filename w in
  let new := read_file_lines filename w' in
  exists i : nat,
    index = Z.of_nat i
    /\ updated_new_value r = strip raw
    /\ new !! i = Some (strip raw)
    /\ (forall j : nat, j <> i -> new !! j = old !! j).
Proof.
  intros Hol H. cbv zeta.
  destruct (update_entry_Return_inv env _ _ _ _ _ _ H) as (Hv & Hs & Hr).
  pose proof (valid_name_not_log env _ _ Hv) as Hne.
  rewrite (update_entry_run env filename index raw w Hv Hs Hr) in H.
  destruct (_ || _) eqn:Hi; [discriminate H|].
  destruct (_ && _); [discriminate H|].
  destruct (index_in_range _ _ Hi) as (Hidx & v & Hl).
  assert (Hcl : Forall (fun l => nonblank l /\ one_line l)
                  (<[Z.to_nat index := strip raw]> (read_file_lines filename w))).
  { apply Forall_insert; [apply read_file_lines_props|]. split; [|exact Hol].
    unfold nonblank. now rewrite strip_idem. }
  rewrite (read_after_commit_clean env _ _ _ _ _ _ _ _ _ Hne Hcl H).
  destruct (read_after_commit env _ _ _ _ _ _ _ _ _ Hne H) as (-> & _ & _).
  exists (Z.to_nat index). split; [exact Hidx|]. split; [reflexivity|]. split.
  - apply list_lookup_insert_eq. eapply lookup_lt_Some, Hl.
  - intros j Hj. now apply list_lookup_insert_ne.
Qed.

(* ===================================================================== *)
(** ** Deleting an entry (C4) *)
(* ===================================================================== *)

(** C4, as stated, fails on a list file that holds the same line twice:
    after deleting index 0 of [a; a], index 0 still holds [a]. *)
Lemma C4_counterexample :
  let w := one_file "a.txt" ("a" ++ NL ++ "a" ++ NL) in
  let run := delete_entry plain_env "a.txt" 0 w in
  read_file_lines "a.txt" w = ["a"; "a"]
  /\ fst run = Return {| deleted_success := true; deleted_value := "a" |}
  /\ read_file_lines "a.txt" (snd run) = ["a"]
  /\ read_file_lines "a.txt" (snd run) !! 0%nat
     = read_file_lines "a.txt" w !! 0%nat.
Proof. cbv zeta. repeat split; vm_compute; reflexivity. Qed.

(** C4, amended.  A successful [delete_entry] at index [i] returns the
    value formerly at [i]; the list read afterwards is one shorter, every
    entry formerly at an index [j > i] is now at [j - 1], the entries
    before [i] stay where they were, and, when the entries of the list were
    pairwise distinct, index [i] no longer holds the deleted value. *)
Theorem C4_delete_shifts_later_entries env filename index w r w' :
  delete_entry env filename index w = (Return r, w') ->
  let old := read_file_lines filename w in
  let new := read_file_lines filename w' in
  exists i : nat,
    index = Z.of_nat i
    /\ old !! i = Some (deleted_value r)
    /\ length old = S (length new)
    /\ (forall j : nat, i < j -> new !! (j - 1) = old !! j)
    /\ (forall j : nat, j < i -> new !! j = old !! j)
    /\ (NoDup old -> new !! i <> Some (deleted_value r)).
Proof.
  intros H. cbv zeta.
  destruct (delete_entry_Return env _ _ _ _ _ H) as (v & Hidx & Hl & Hd & Hnew).
  exists (Z.to_nat index). rewrite Hnew, Hd.
  split; [exact Hidx|]. split; [exact Hl|].
  pose proof (lookup_lt_Some _ _ _ Hl) as Hlt.
  split; [rewrite length_delete by eauto; lia|].
  split; [|split].
  - intros j Hj. rewrite list_lookup_delete_ge by lia. f_equal. lia.
  - intros j Hj. now apply list_lookup_delete_lt.
  - intros Hnd Hi. rewrite list_lookup_delete_ge in Hi by lia.
    pose proof (NoDup_lookup _ _ _ _ Hnd Hl Hi). lia.
Qed.

Lemma C4_witness :
  let w := one_file "a.txt" ("a" ++ NL ++ "b" ++ NL ++ "c" ++ NL) in
  let run := delete_entry plain_env "a.txt" 1 w in
  exists i : nat,
    1%Z = Z.of_nat i
    /\ read_file_lines "a.txt" w !! i = Some "b"
    /\ length (read_file_lines "a.txt" w)
       = S (length (read_file_lines "a.txt" (snd run)))
    /\ (forall j : nat, i < j ->
          read_file_lines "a.txt" (snd run) !! (j - 1)
          = read_file_lines "a.txt" w !! j)
    /\ (forall j : nat, j < i ->
          read_file_lines "a.txt" (snd run) !! j
          = read_file_lines "a.txt" w !! j)
    /\ (NoDup (read_file_lines "a.txt" w) ->
          read_file_lines "a.txt" (snd run) !! i <> Some "b").
Proof.
  cbv zeta.
  apply (C4_delete_shifts_later_entries plain_env "a.txt" 1
           (one_file "a.txt" ("a" ++ NL ++ "b" ++ NL ++ "c" ++ NL))
           {| deleted_success := true; deleted_value := "b" |}).
  vm_compute. reflexivity.
Defined.

(* ===================================================================== *)
(** ** Export against the listing (C8) *)
(* ===================================================================== *)

Lemma entry_values_imap (g : nat -> nat) (lines : list string) :
  map entry_value
      (imap (fun i line => {| entry_index := g i; entry_value := line |}) lines)
  = lines.
Proof.
  revert g. induction lines as [|l ls IH]; intros g; [reflexivity|].
  cbn [imap map entry_value]. f_equal. apply (IH (g ∘ S)).
Qed.

(** Export and listing of a file that holds what [write_file_lines] wrote. *)
Lemma round_trip_of_written env filename lines w :
  validate_filename env filename = Return filename ->
  stored filename w = Some (file_text lines) ->
  exists text fe,
    export_file env filename w = (Return text, w)
    /\ get_file_entries env filename w = (Return fe, w)
    /\ split_nonblank text = map entry_value (fe_entries fe)
    /\ (Forall one_line lines -> text = file_text lines)
    /\ (Forall (fun l => nonblank l /\ one_line l) lines ->
        split_nonblank text = lines).
Proof.
  intros Hv Hs.
  exists (universal_newlines (file_text lines)).
  eexists. split; [|split; [|split; [|split]]].
  - unfold export_file, bind, lift, gets, raise_if, raise, ret.
    rewrite Hv, exists_stored, Hs, bool_decide_eq_true_2 by eauto.
    cbn [negb]. unfold read_text. unfold stored in Hs. now rewrite Hs.
  - unfold get_file_entries, bind, lift, gets, raise_if, raise, ret.
    rewrite Hv, exists_stored, Hs, bool_decide_eq_true_2 by eauto.
    cbn [negb]. reflexivity.
  - cbn [fe_entries]. rewrite (entry_values_imap (fun i => i)).
    rewrite read_file_lines_stored, Hs. symmetry.
    apply lines_of_text_split, universal_newlines_no_CR.
  - intros H1. now apply universal_newlines_id, file_text_no_CR.
  - intros Hc. rewrite <- lines_of_text_split by apply universal_newlines_no_CR.
    now apply lines_of_file_text.
Qed.

(** After a successful [add_entry] or [update_entry] the list file holds
    the joined lines with a closing line feed.  Exporting it and splitting
    the exported text on the line feed, blank pieces dropped, gives the
    entry values of the list as [get_file_entries] returns them, in the
    same order; these are the very lines the operation wrote only when the
    new value is a single line. *)
Lemma export_round_trip_after_write env filename w :
  let old := read_file_lines filename w in
  (forall raw r w',
     add_entry env filename raw w = (Return r, w') ->
     exists text fe,
       stored filename w' = Some (file_text (old ++ [strip raw]))
       /\ export_file env filename w' = (Return text, w')
       /\ get_file_entries env filename w' = (Return fe, w')
       /\ split_nonblank text = map entry_value (fe_entries fe)
       /\ (one_line (strip raw) ->
           text = file_text (old ++ [strip raw])
           /\ split_nonblank text = (old ++ [strip raw])%list))
  /\ (forall index raw r w',
     update_entry env filename index raw w = (Return r, w') ->
     exists text fe,
       stored filename w'
       = Some (file_text (<[Z.to_nat index := strip raw]> old))
       /\ export_file env filename w' = (Return text, w')
       /\ get_file_entries env filename w' = (Return fe, w')
       /\ split_nonblank text = map entry_value (fe_entries fe)
       /\ (one_line (strip raw) ->
           text = file_text (<[Z.to_nat index := strip raw]> old)
           /\ split_nonblank text = <[Z.to_nat index := strip raw]> old)).
Proof.
  cbv zeta. split.
  - intros raw r w' H.
    destruct (add_entry_Return_inv env _ _ _ _ _ H) as (Hv & Hr).
    pose proof (valid_name_not_log env _ _ Hv) as Hne.
    rewrite (add_entry_run env filename raw w Hv Hr) in H.
    destruct (mem _ _); [discriminate H|].
    destruct (read_after_commit env _ _ _ _ _ _ _ _ _ Hne H) as (_ & Hs & _).
    destruct (round_trip_of_written env filename _ w' Hv Hs)
      as (text & fe & He & Hg & Hrt & Htxt & Hcl).
    exists text, fe. do 4 (split; [assumption|]). intros Hol. split.
    + apply Htxt. apply Forall_app. split.
      * eapply Forall_impl; [apply read_file_lines_props | now intros ? [_ ?]].
      * now apply Forall_singleton.
    + apply Hcl. apply Forall_app. split; [apply read_file_lines_props|].
      apply Forall_singleton. split; [|exact Hol].
      unfold nonblank. now rewrite strip_idem.
  - intros index raw r w' H.
    destruct (update_entry_Return_inv env _ _ _ _ _ _ H) as (Hv & Hs0 & Hr).
    pose proof (valid_name_not_log env _ _ Hv) as Hne.
    rewrite (update_entry_run env filename index raw w Hv Hs0 Hr) in H.
    destruct (_ || _); [discriminate H|].
    destruct (_ && _); [discriminate H|].
    destruct (read_after_commit env _ _ _ _ _ _ _ _ _ Hne H) as (_ & Hs & _).
    destruct (round_trip_of_written env filename _ w' Hv Hs)
      as (text & fe & He & Hg & Hrt & Htxt & Hcl).
    exists text, fe. do 4 (split; [assumption|]). intros Hol. split.
    + apply Htxt. apply Forall_insert; [|assumption].
      eapply Forall_impl; [apply read_file_lines_props | now intros ? [_ ?]].
    + apply Hcl. apply Forall_insert; [apply read_file_lines_props|].
      split; [|assumption]. unfold nonblank. now rewrite strip_idem.
Qed.

Lemma export_round_trip_example :
  let w := one_file "a.txt" ("k" ++ NL) in
  let w' := snd (add_entry plain_env "a.txt" " m " w) in
  exists text fe,
    stored "a.txt" w' = Some (file_text (read_file_lines "a.txt" w ++ [strip " m "]))
    /\ export_file plain_env "a.txt" w' = (Return text, w')
    /\ get_file_entries plain_env "a.txt" w' = (Return fe, w')
    /\ split_nonblank text = map entry_value (fe_entries fe)
    /\ (one_line (strip " m ") ->
        text = file_text (read_file_lines "a.txt" w ++ [strip " m "])
        /\ split_nonblank text = (read_file_lines "a.txt" w ++ [strip " m "])%list).
Proof.
  cbv zeta.
  apply (proj1 (export_round_trip_after_write plain_env "a.txt"
                  (one_file "a.txt" ("k" ++ NL)))
           " m "
           {| added_success := true; added_index := 1; added_value := "m" |}).
  vm_compute. reflexivity.
Defined.

(** C8, at a failing input.  On the empty store [add_entry] accepts the
    value [x\ny] and writes it as the one value of the list, so the file
    holds [x\ny\n].  [export_file] returns that text, and its pieces
    between line feeds, blank ones dropped, are [x] and [y]: two values,
    not the value that was written. *)
Theorem C8_export_two_line_value :
  let run := add_entry plain_env "a.txt" two_line_value no_dir in
  let w' := snd run in
  fst run = Return {| added_success := true; added_index := 0;
                      added_value := two_line_value |}
  /\ stored "a.txt" w' = Some (file_text [two_line_value])
  /\ fst (export_file plain_env "a.txt" w') = Return (two_line_value ++ NL)
  /\ split_nonblank (two_line_value ++ NL) = ["x"; "y"]
  /\ split_nonblank (two_line_value ++ NL) <> [two_line_value].
Proof.
  cbv zeta. repeat split; try (vm_compute; reflexivity).
  vm_compute. discriminate.
Qed.

(* ===================================================================== *)
(** ** The list invariant (C1) *)
(* ===================================================================== *)

Lemma map_strip_trimmed entries :
  stored_trimmed entries -> map strip entries = entries.
Proof.
  induction 1 as [|e es He _ IH]; [reflexivity|].
  cbn [map]. now rewrite He, IH.
Qed.

Lemma list_invariant_trimmed entries :
  stored_trimmed entries ->
  (list_invariant entries <-> Forall (fun e => e <> "") entries /\ NoDup entries).
Proof.
  intros Ht. unfold list_invariant. rewrite (map_strip_trimmed _ Ht).
  assert (Hiff : Forall (fun e => strip e <> "") entries
                 <-> Forall (fun e => e <> "") entries).
  { unfold stored_trimmed in Ht. rewrite !Forall_forall in *.
    split; intros H e He; specialize (H e He); specialize (Ht e He);
      congruence. }
  now rewrite Hiff.
Qed.

Lemma mem_false value lines : mem value lines = false -> value ∉ lines.
Proof.
  unfold mem. induction lines as [|l ls IH]; intros H.
  - apply not_elem_of_nil.
  - cbn [existsb] in H. apply orb_false_iff in H as [H1 H2].
    apply String.eqb_neq in H1. apply not_elem_of_cons. auto.
Qed.

Lemma index_Some value lines i :
  Py.index value lines = Some i -> lines !! i = Some value.
Proof.
  revert i. induction lines as [|l ls IH]; intros i H; [discriminate H|].
  cbn [Py.index] in H. destruct (String.eqb_spec l value) as [->|_].
  - injection H as <-. reflexivity.
  - destruct (Py.index value ls) as [k|]; [|discriminate H].
    injection H as <-. now apply IH.
Qed.

Lemma NoDup_list_insert (l : list string) i v :
  NoDup l -> v ∉ l -> NoDup (<[i := v]> l).
Proof.
  intros Hnd. revert i. induction Hnd as [|x l Hx Hnd IH]; intros i Hv.
  - constructor.
  - apply not_elem_of_cons in Hv as [Hvx Hv]. destruct i as [|i].
    + cbn. now constructor.
    + cbn. constructor; [|now apply IH].
      intros Hin. apply list_elem_of_lookup in Hin as [j Hj].
      apply list_lookup_insert_Some in Hj as [(_ & -> & _)|(_ & Hj)];
        [congruence|].
      apply Hx. eapply list_elem_of_lookup_2, Hj.
Qed.

(** C1, as stated, fails in two ways.  First, a list file may hold an entry
    with blanks around it: [a ] alone satisfies the invariant, adding [a]
    succeeds because the stored line differs from [a], and the two entries
    are then equal after trimming.  Second, a value that spans two lines
    is accepted and read back as two entries: adding [a\na] to the empty
    store leaves the entry [a] twice. *)
Lemma C1_counterexample :
  (let w := one_file "a.txt" ("a " ++ NL) in
   let run := add_entry plain_env "a.txt" "a" w in
   list_invariant (read_file_lines "a.txt" w)
   /\ fst run = Return {| added_success := true; added_index := 1;
                          added_value := "a" |}
   /\ ~ list_invariant (read_file_lines "a.txt" (snd run)))
  /\ (let run := add_entry plain_env "a.txt" ("a" ++ NL ++ "a") no_dir in
      list_invariant (read_file_lines "a.txt" no_dir)
      /\ fst run = Return {| added_success := true; added_index := 0;
                             added_value := "a" ++ NL ++ "a" |}
      /\ ~ list_invariant (read_file_lines "a.txt" (snd run))).
Proof.
  cbv zeta. split; (split; [|split]).
  - replace (read_file_lines _ _) with ["a "] by (vm_compute; reflexivity).
    split; [now repeat constructor | apply NoDup_singleton].
  - vm_compute. reflexivity.
  - replace (read_file_lines _ _) with ["a "; "a"] by (vm_compute; reflexivity).
    intros [_ H]. apply NoDup_cons in H as [H _]. apply H. vm_compute. left.
  - split; constructor.
  - vm_compute. reflexivity.
  - replace (read_file_lines _ _) with ["a"; "a"] by (vm_compute; reflexivity).
    intros [_ H]. apply NoDup_cons in H as [H _]. apply H. vm_compute. left.
Qed.

(** C1, amended.  Let the entries of a list be stored trimmed and satisfy
    the invariant.  Every successful [add_entry] and [update_entry] whose
    value, once trimmed, is a single line, leaves a list whose entries are
    again stored trimmed and satisfy the invariant: none is empty, no two
    are equal after trimming.  Every successful [delete_entry] preserves the
    invariant as it is, trimmed entries or not. *)
Theorem C1_invariant_preserved env filename w :
  let old := read_file_lines filename w in
  list_invariant old ->
  (forall raw r w',
     stored_trimmed old -> one_line (strip raw) ->
     add_entry env filename raw w = (Return r, w') ->
     list_invariant (read_file_lines filename w')
     /\ stored_trimmed (read_file_lines filename w'))
  /\ (forall index raw r w',
     stored_trimmed old -> one_line (strip raw) ->
     update_entry env filename index raw w = (Return r, w') ->
     list_invariant (read_file_lines filename w')
     /\ stored_trimmed (read_file_lines filename w'))
  /\ (forall index r w',
     delete_entry env filename index w = (Return r, w') ->
     list_invariant (read_file_lines filename w')).
Proof.
  cbv zeta. intros Hinv. split; [|split].
  - intros raw r w' Ht Hol H.
    destruct (add_entry_Return_inv env _ _ _ _ _ H) as (Hv & Hr).
    pose proof (valid_name_not_log env _ _ Hv) as Hne.
    rewrite (add_entry_run env filename raw w Hv Hr) in H.
    destruct (mem _ _) eqn:Hmem; [discriminate H|].
    apply mem_false in Hmem.
    assert (Hnb : nonblank (strip raw)) by (unfold nonblank; now rewrite strip_idem).
    assert (Hcl : Forall (fun l => nonblank l /\ one_line l)
                    (read_file_lines filename w ++ [strip raw])).
    { apply Forall_app. split; [apply read_file_lines_props|].
      now apply Forall_singleton. }
    rewrite (read_after_commit_clean env _ _ _ _ _ _ _ _ _ Hne Hcl H).
    assert (Ht' : stored_trimmed (read_file_lines filename w ++ [strip raw])).
    { apply Forall_app. split; [exact Ht|]. apply Forall_singleton, strip_idem. }
    split; [|exact Ht'].
    apply (list_invariant_trimmed _ Ht'). apply (list_invariant_trimmed _ Ht) in Hinv.
    destruct Hinv as [Hne' Hnd]. split.
    + apply Forall_app. split; [exact Hne'|]. apply Forall_singleton.
      intros E. rewrite E in Hr. discriminate Hr.
    + apply NoDup_app. split; [exact Hnd|]. split; [|apply NoDup_singleton].
      intros x Hx Hx'. apply list_elem_of_singleton in Hx'. now subst.
  - intros index raw r w' Ht Hol H.
    destruct (update_entry_Return_inv env _ _ _ _ _ _ H) as (Hv & Hs & Hr).
    pose proof (valid_name_not_log env _ _ Hv) as Hne.
    rewrite (update_entry_run env filename index raw w Hv Hs Hr) in H.
    destruct (_ || _); [discriminate H|].
    destruct (_ && _) eqn:Hdup; [discriminate H|].
    assert (Hnb : nonblank (strip raw)) by (unfold nonblank; now rewrite strip_idem).
    assert (Hcl : Forall (fun l => nonblank l /\ one_line l)
                    (<[Z.to_nat index := strip raw]> (read_file_lines filename w))).
    { apply Forall_insert; [apply read_file_lines_props | now split]. }
    rewrite (read_after_commit_clean env _ _ _ _ _ _ _ _ _ Hne Hcl H).
    assert (Ht' : stored_trimmed
                    (<[Z.to_nat index := strip raw]> (read_file_lines filename w))).
    { apply Forall_insert; [exact Ht | apply strip_idem]. }
    split; [|exact Ht'].
    apply (list_invariant_trimmed _ Ht'). apply (list_invariant_trimmed _ Ht) in Hinv.
    destruct Hinv as [Hne' Hnd]. split.
    + apply Forall_insert; [exact Hne'|].
      intros E. rewrite E in Hr. discriminate Hr.
    + apply andb_false_iff in Hdup as [Hmem|Hidx].
      * apply NoDup_list_insert; [exact Hnd | now apply mem_false].
      * apply negb_false_iff, bool_decide_eq_true_1, index_Some in Hidx.
        now rewrite list_insert_id.
  - intros index r w' H.
    destruct (delete_entry_Return env _ _ _ _ _ H) as (v & _ & _ & _ & ->).
    destruct Hinv as [Hne' Hnd]. split.
    + now apply Forall_delete.
    + eapply sublist_NoDup; [exact Hnd|].
      apply (fmap_sublist strip), sublist_delete.
Qed.

Lemma C1_witness :
  let w := one_file "a.txt" ("a" ++ NL ++ "b" ++ NL) in
  (list_invariant
     (read_file_lines "a.txt" (snd (add_entry plain_env "a.txt" " c " w)))
   /\ stored_trimmed
        (read_file_lines "a.txt" (snd (add_entry plain_env "a.txt" " c " w))))
  /\ (list_invariant
        (read_file_lines "a.txt" (snd (update_entry plain_env "a.txt" 0 " c " w)))
      /\ stored_trimmed
           (read_file_lines "a.txt"
              (snd (update_entry plain_env "a.txt" 0 " c " w))))
  /\ list_invariant
       (read_file_lines "a.txt" (snd (delete_entry plain_env "a.txt" 0 w))).
Proof.
  cbv zeta.
  assert (Hold : read_file_lines "a.txt" (one_file "a.txt" ("a" ++ NL ++ "b" ++ NL))
                 = ["a"; "b"]) by (vm_compute; reflexivity).
  assert (Hinv : list_invariant
                   (read_file_lines "a.txt"
                      (one_file "a.txt" ("a" ++ NL ++ "b" ++ NL)))).
  { rewrite Hold. split.
    - repeat constructor; discriminate.
    - vm_compute. repeat constructor; intros Hin;
        repeat (apply elem_of_cons in Hin as [Hin|Hin]; [discriminate Hin|]);
        now apply elem_of_nil in Hin. }
  assert (Htr : stored_trimmed
                  (read_file_lines "a.txt"
                     (one_file "a.txt" ("a" ++ NL ++ "b" ++ NL)))).
  { rewrite Hold. repeat constructor. }
  destruct (C1_invariant_preserved plain_env "a.txt"
              (one_file "a.txt" ("a" ++ NL ++ "b" ++ NL)) Hinv) as (Ha & Hu & Hd).
  split; [|split].
  - apply (Ha " c " {| added_success := true; added_index := 2;
                       added_value := "c" |}).
    + exact Htr.
    + split; reflexivity.
    + vm_compute. reflexivity.
  - apply (Hu 0%Z " c " {| updated_success := true; updated_index := 0;
                           updated_old_value := "a";
                           updated_new_value := "c" |}).
    + exact Htr.
    + split; reflexivity.
    + vm_compute. reflexivity.
  - apply (Hd 0%Z {| deleted_success := true; deleted_value := "a" |}).
    vm_compute. reflexivity.
Defined.

(* ===================================================================== *)
(** ** The validators, property by property *)
(* ===================================================================== *)

Module NameFacts.

Lemma all_chars_has_char p c s :
  all_chars p s = true -> p c = false -> has_char c s = false.
Proof.
  intros Hs Hc. induction s as [|a s IH]; [reflexivity|].
  cbn [all_chars] in Hs. apply andb_true_iff in Hs as [Ha Hs].
  rewrite has_char_cons, (IH Hs).
  destruct (Ascii.eqb_spec c a) as [->|_]; [congruence | reflexivity].
Qed.

Lemma all_chars_app p s t :
  all_chars p (s ++ t) = all_chars p s && all_chars p t.
Proof.
  induction s as [|a s IH]; [reflexivity|].
  rewrite append_cons. cbn [all_chars]. now rewrite IH, andb_assoc.
Qed.

Lemma endswith_append x suf : endswith (x ++ suf) suf = true.
Proof.
  induction x as [|a x IH].
  - change ("" ++ suf) with suf. destruct suf; cbn [endswith];
      now rewrite String.eqb_refl.
  - rewrite append_cons. cbn [endswith]. rewrite IH. apply orb_true_r.
Qed.

(** A stem and [.txt] is no shorter text that has no dot before [txt]. *)
Lemma stem_txt_neq x t :
  has_char "." t = false -> x ++ ".txt" <> t.
Proof.
  intros Ht E. rewrite <- E, has_char_app in Ht.
  rewrite orb_true_r in Ht. discriminate Ht.
Qed.

(** The regular expression on a name that ends in [.txt]. *)
Lemma re_match_name_txt x :
  re_match_name (x ++ ".txt") = truthy x && all_chars name_char x.
Proof.
  induction x as [|c x IH]; [reflexivity|].
  rewrite append_cons. cbn [re_match_name truthy all_chars andb].
  rewrite IH. destruct x as [|d x]; [now destruct (name_char c)|].
  rewrite append_cons.
  destruct (String.eqb_spec (String d (x ++ ".txt")) ".txt") as [E|_].
  { injection E as _ E. now apply stem_txt_neq in E. }
  destruct (String.eqb_spec (String d (x ++ ".txt"))
              (".txt" ++ String LF "")) as [E|_].
  { injection E as _ E. now apply stem_txt_neq in E. }
  reflexivity.
Qed.

Lemma lstrip_by_nil_iff p s : lstrip_by p s = "" <-> all_chars p s = true.
Proof.
  induction s as [|a s IH]; [easy|].
  cbn [lstrip_by all_chars]. destruct (p a); [exact IH|]. easy.
Qed.

(** What [strip] leaves is empty exactly for a string of blanks. *)
Lemma strip_nil_iff s : strip s = "" <-> all_chars isspace s = true.
Proof.
  rewrite <- lstrip_by_nil_iff. unfold strip.
  destruct (lstrip_by_head isspace s) as [E | (a & r & E & Ha)]; rewrite E.
  - easy.
  - destruct (rstrip_by_head isspace a r Ha) as [r' ->]. easy.
Qed.

End NameFacts.
Import NameFacts.

(** X1.  [validate_filename] accepts a name exactly when it is a non-empty
    stem of letters, digits, underscores, hyphens and dots followed by
    [.txt], has no two dots in a row, and resolves inside the storage
    directory; the tests for the slash and the backslash reject nothing
    that the character class would let through. *)
Theorem X1_validate_filename_accepts_iff env filename :
  validate_filename env filename = Return filename
  <-> (exists stem, filename = stem ++ ".txt"
                    /\ stem <> ""
                    /\ all_chars name_char stem = true)
      /\ contains ".." filename = false
      /\ resolves_inside env filename = true.
Proof.
  split.
  - intros H. unfold validate_filename in H.
    destruct (endswith filename ".txt") eqn:E1; [|discriminate H].
    cbn [negb] in H.
    destruct (contains ".." filename) eqn:E2; [discriminate H|].
    destruct (_ || _); [discriminate H|].
    destruct (re_match_name filename) eqn:E3; [|discriminate H].
    destruct (resolves_inside env filename) eqn:E4; [|discriminate H].
    destruct (endswith_app _ _ E1) as [x ->].
    rewrite re_match_name_txt in E3. apply andb_true_iff in E3 as [Hx Hall].
    repeat split. exists x. repeat split; [|exact Hall].
    intros ->. discriminate Hx.
  - intros ((x & -> & Hx & Hall) & Hdots & Hres).
    unfold validate_filename.
    rewrite endswith_append, Hdots, Hres, re_match_name_txt, Hall.
    assert (Hcls : all_chars name_char (x ++ ".txt") = true)
      by (rewrite all_chars_app, Hall; reflexivity).
    change (contains "/" (x ++ ".txt")) with (has_char "/" (x ++ ".txt")).
    change (contains BACKSLASH (x ++ ".txt")) with (has_char "\" (x ++ ".txt")).
    rewrite !(all_chars_has_char name_char) by (exact Hcls || reflexivity).
    destruct x; [congruence | reflexivity].
Qed.

(** X2.  [validate_entry] rejects a value with [EmptyEntry] exactly when it
    consists of blanks only (the empty string included).  A value it
    returns is the trimmed input, is not empty, and is returned unchanged
    when validated again. *)
Theorem X2_validate_entry_trims filename raw :
  (validate_entry filename raw
   = Raise (HTTPException 400 "Empty entries are not allowed")
   <-> all_chars isspace raw = true)
  /\ (forall value,
        validate_entry filename raw = Return value ->
        value = strip raw /\ value <> ""
        /\ all_chars isspace raw = false
        /\ validate_entry filename value = Return value).
Proof.
  split.
  - unfold validate_entry. rewrite <- strip_nil_iff.
    destruct (strip raw) eqn:E; cbn [truthy negb].
    + easy.
    + split; discriminate.
  - intros value H.
    assert (Hv : value = strip raw /\ truthy (strip raw) = true).
    { unfold validate_entry in H. cbv zeta in H.
      destruct (truthy (strip raw)); [|discriminate H].
      injection H as <-. auto. }
    destruct Hv as [-> Ht]. split; [reflexivity|]. split; [|split].
    + intros E. rewrite E in Ht. discriminate Ht.
    + destruct (all_chars isspace raw) eqn:Hall; [|reflexivity].
      apply strip_nil_iff in Hall. rewrite Hall in Ht. discriminate Ht.
    + unfold validate_entry. cbv zeta. now rewrite strip_idem, Ht.
Qed.

Lemma X2_witness :
  "10.0.0.1" = strip "  10.0.0.1 " /\ "10.0.0.1" <> ""
  /\ all_chars isspace "  10.0.0.1 " = false
  /\ validate_entry "a.txt" "10.0.0.1" = Return "10.0.0.1".
Proof.
  apply (proj2 (X2_validate_entry_trims "a.txt" "  10.0.0.1 ") "10.0.0.1").
  reflexivity.
Defined.

Lemma X1_witness : validate_filename plain_env "block-list_1.txt" = Return "block-list_1.txt".
Proof.
  apply (proj2 (X1_validate_filename_accepts_iff plain_env "block-list_1.txt")).
  split; [|split; reflexivity].
  exists "block-list_1". repeat split. discriminate.
Defined.

(* ===================================================================== *)
(** ** Backups, reads and writes, file by file *)
(* ===================================================================== *)

Module FileFacts.

Section Backup.
Context (env : Env).

(** For an accepted name the copy goes to the name followed by [.bak.] and
    the time stamp. *)
Lemma backup_path_valid filename :
  validate_filename env filename = Return filename ->
  backup_path env filename
  = filename ++ ".bak." ++ strftime_backup (backup_now env).
Proof.
  intros H. destruct (valid_name_shape env _ _ H) as (c & y & ->).
  unfold backup_path, with_suffix.
  rewrite cut_last_suffix_txt, !append_cons. f_equal.
  now rewrite append_assoc.
Qed.

Lemma backup_path_not_log filename :
  validate_filename env filename = Return filename ->
  backup_path env filename <> CHANGE_LOG.
Proof.
  intros H E. rewrite (backup_path_valid _ H) in E.
  destruct (valid_name_shape env _ _ H) as (c & y & ->).
  assert (Hx : has_char "x" CHANGE_LOG = true).
  { rewrite <- E, append_cons, has_char_cons, !has_char_app.
    change (has_char "x" ".txt") with true.
    rewrite !orb_true_r. reflexivity. }
  discriminate Hx.
Qed.

Lemma create_backup_run filename w :
  create_backup env filename w
  = (Return tt,
     if exists_ filename w
     then write_text (backup_path env filename) (read_text filename w) w
     else w).
Proof. unfold create_backup. now destruct (exists_ filename w). Qed.

Lemma stored_create_backup_other filename g w :
  g <> backup_path env filename ->
  stored g (snd (create_backup env filename w)) = stored g w.
Proof.
  intros Hg. rewrite create_backup_run. cbn [snd].
  destruct (exists_ filename w); [|reflexivity].
  apply stored_write_text_ne. congruence.
Qed.

Lemma stored_create_backup_copy filename content w :
  stored filename w = Some content ->
  stored (backup_path env filename) (snd (create_backup env filename w))
  = Some (universal_newlines content).
Proof.
  intros Hs. rewrite create_backup_run. cbn [snd].
  rewrite exists_stored, Hs, bool_decide_eq_true_2 by eauto.
  unfold read_text. unfold stored in Hs. rewrite Hs. cbn [default].
  apply stored_write_text_eq. unfold dir in Hs.
  destruct (base_dir w); [discriminate | discriminate Hs].
Qed.

End Backup.

Lemma stored_write_file_lines_other filename g lines w :
  g <> filename -> stored g (write_file_lines filename lines w) = stored g w.
Proof.
  intros Hg. unfold write_file_lines.
  rewrite stored_write_text_ne by congruence. apply stored_mkdir.
Qed.

Lemma StronglySorted_filter {A} (R : relation A) (P : A -> Prop)
    `{forall x, Decision (P x)} (l : list A) :
  StronglySorted R l -> StronglySorted R (filter P l).
Proof.
  induction 1 as [|x l Hl IH Hx]; [constructor|].
  rewrite filter_cons. destruct (decide (P x)); [|exact IH].
  constructor; [exact IH|].
  rewrite Forall_forall in *. intros y Hy.
  apply list_elem_of_filter in Hy as [_ Hy]. auto.
Qed.

Lemma endswith_txt_not_lock name :
  endswith name ".txt" = true -> endswith name ".lock" = false.
Proof.
  induction name as [|a s IH]; [discriminate|].
  cbn [endswith]. intros H. apply orb_true_iff in H as [H|H].
  - apply String.eqb_eq in H. injection H as -> ->. reflexivity.
  - rewrite (IH H), orb_false_r.
    destruct (String.eqb_spec (String a s) ".lock") as [E|_]; [|reflexivity].
    injection E as _ ->. discriminate H.
Qed.

Lemma endswith_txt_not_log name :
  endswith name ".txt" = true -> String.eqb name "change.log" = false.
Proof.
  intros H. destruct (String.eqb_spec name "change.log") as [->|_];
    [discriminate H | reflexivity].
Qed.

End FileFacts.
Import FileFacts.

(** X3.  [create_backup] on an accepted name: when the file is absent
    nothing happens; when it exists, its text is copied to the file named
    by the list's name, [.bak.] and the time stamp of the clock (carriage
    returns read as line feeds), and no other file is touched, the
    original included. *)
Theorem X3_create_backup_copies env filename w :
  validate_filename env filename = Return filename ->
  (stored filename w = None ->
     create_backup env filename w = (Return tt, w))
  /\ (forall content,
        stored filename w = Some content ->
        let copy := filename ++ ".bak." ++ strftime_backup (backup_now env) in
        let w' := snd (create_backup env filename w) in
        fst (create_backup env filename w) = Return tt
        /\ stored copy w' = Some (universal_newlines content)
        /\ stored filename w' = Some content
        /\ (forall g, g <> copy -> stored g w' = stored g w)).
Proof.
  intros Hv. split.
  - intros Hs. rewrite create_backup_run, exists_stored, Hs.
    rewrite bool_decide_eq_false_2; [reflexivity|]. now intros [? ?].
  - intros content Hs. cbv zeta. rewrite <- (backup_path_valid env _ Hv).
    split; [apply create_backup_returns|]. split; [|split].
    + now apply stored_create_backup_copy.
    + rewrite (stored_create_backup env filename filename) by assumption.
      exact Hs.
    + intros g Hg. now apply stored_create_backup_other.
Qed.

Lemma X3_witness :
  let w := one_file "a.txt" ("k" ++ String CR NL ++ "m") in
  let w' := snd (create_backup plain_env "a.txt" w) in
  fst (create_backup plain_env "a.txt" w) = Return tt
  /\ stored "a.txt.bak.20240102030405" w' = Some ("k" ++ NL ++ "m")
  /\ stored "a.txt" w' = Some ("k" ++ String CR NL ++ "m")
  /\ (forall g, g <> "a.txt.bak.20240102030405" -> stored g w' = stored g w).
Proof.
  cbv zeta.
  apply (proj2 (X3_create_backup_copies plain_env "a.txt"
                  (one_file "a.txt" ("k" ++ String CR NL ++ "m")) eq_refl)
           ("k" ++ String CR NL ++ "m")).
  reflexivity.
Defined.

(** X4.  [read_file_lines] gives no entry for an absent file.  For a file
    that exists it gives the pieces of the text between line feeds that
    are not blank, in order, where CR LF and a lone CR count as a line
    feed; each entry is therefore non-blank and holds neither a line feed
    nor a carriage return, while blanks at either end of a line are
    kept. *)
Theorem X4_read_file_lines_splits filename w :
  (stored filename w = None -> read_file_lines filename w = [])
  /\ (forall content,
        stored filename w = Some content ->
        read_file_lines filename w
        = split_nonblank (universal_newlines content))
  /\ Forall (fun l => nonblank l /\ one_line l) (read_file_lines filename w).
Proof.
  split; [|split].
  - intros Hs. now rewrite read_file_lines_stored, Hs.
  - intros content Hs. rewrite read_file_lines_stored, Hs.
    apply lines_of_text_split, universal_newlines_no_CR.
  - apply read_file_lines_props.
Qed.

Lemma X4_witness :
  read_file_lines "a.txt" no_dir = []
  /\ read_file_lines "a.txt"
       (one_file "a.txt" (" k " ++ String CR NL ++ NL ++ "  " ++ NL ++ "m"))
     = [" k "; "m"].
Proof.
  split.
  - apply (proj1 (X4_read_file_lines_splits "a.txt" no_dir)). reflexivity.
  - rewrite (proj1 (proj2 (X4_read_file_lines_splits "a.txt"
               (one_file "a.txt" (" k " ++ String CR NL ++ NL ++ "  " ++ NL ++ "m"))))
               (" k " ++ String CR NL ++ NL ++ "  " ++ NL ++ "m") eq_refl).
    reflexivity.
Defined.

(** X5.  [write_file_lines] creates the directory when needed and leaves
    every other file alone.  Lines that are non-blank single lines are read
    back exactly as written; and writing back what was read changes nothing
    for the reader, whatever blank lines or carriage returns the file held
    before. *)
Theorem X5_write_then_read filename lines w :
  base_dir (write_file_lines filename lines w) <> None
  /\ stored filename (write_file_lines filename lines w) = Some (file_text lines)
  /\ (forall g, g <> filename ->
        stored g (write_file_lines filename lines w) = stored g w)
  /\ (Forall (fun l => nonblank l /\ one_line l) lines ->
      read_file_lines filename (write_file_lines filename lines w) = lines)
  /\ read_file_lines filename
       (write_file_lines filename (read_file_lines filename w) w)
     = read_file_lines filename w.
Proof.
  split; [discriminate|]. split; [apply stored_write_file_lines|].
  split; [intros g Hg; now apply stored_write_file_lines_other|].
  split; [apply read_write_file_lines|].
  apply read_write_file_lines, read_file_lines_props.
Qed.

Lemma X5_witness :
  (forall g, g <> "a.txt" ->
     stored g (write_file_lines "a.txt" ["k"; " m"] no_dir) = stored g no_dir)
  /\ read_file_lines "a.txt" (write_file_lines "a.txt" ["k"; " m"] no_dir)
     = ["k"; " m"].
Proof.
  destruct (X5_write_then_read "a.txt" ["k"; " m"] no_dir)
    as (_ & _ & Hother & Hread & _).
  split; [exact Hother|]. apply Hread.
  repeat constructor.
Defined.

(** X6.  A successful [get_file_entries] changes nothing, returns the name
    it was asked for, and numbers the entries of [read_file_lines] from 0
    upwards without gaps; the count is the number of entries. *)
Theorem X6_get_file_entries_numbers env filename w fe w' :
  get_file_entries env filename w = (Return fe, w') ->
  w' = w
  /\ is_Some (stored filename w)
  /\ fe_filename fe = filename
  /\ fe_count fe = length (read_file_lines filename w)
  /\ length (fe_entries fe) = fe_count fe
  /\ (forall i : nat,
        fe_entries fe !! i
        = (fun line => {| entry_index := i; entry_value := line |})
            <$> read_file_lines filename w !! i).
Proof.
  intros H. destruct (valid_or_rejected env filename) as [Hv|[e He]].
  2:{ destruct (rejected_name env filename e w He) as (Hg & _).
      rewrite Hg in H. discriminate H. }
  destruct (stored filename w) as [c|] eqn:Hs.
  2:{ destruct (missing_list env filename w Hv Hs) as (Hg & _).
      rewrite Hg in H. discriminate H. }
  unfold get_file_entries, bind, lift, gets, raise_if, raise, ret in H.
  rewrite Hv, exists_stored, Hs, bool_decide_eq_true_2 in H by eauto.
  cbn [negb] in H. injection H as <- <-. cbn [fe_filename fe_count fe_entries].
  rewrite length_imap. repeat split; eauto.
  intros i. apply list_lookup_imap.
Qed.

Lemma X6_witness :
  let w := one_file "a.txt" ("k" ++ NL ++ NL ++ "m" ++ NL) in
  exists fe,
    get_file_entries plain_env "a.txt" w = (Return fe, w)
    /\ fe_count fe = 2
    /\ fe_entries fe = [ {| entry_index := 0; entry_value := "k" |};
                         {| entry_index := 1; entry_value := "m" |} ]
    /\ (forall i : nat,
          fe_entries fe !! i
          = (fun line => {| entry_index := i; entry_value := line |})
              <$> read_file_lines "a.txt" w !! i).
Proof.
  cbv zeta. eexists. split; [vm_compute; reflexivity|].
  split; [reflexivity|]. split; [reflexivity|].
  eapply (X6_get_file_entries_numbers plain_env "a.txt").
  vm_compute. reflexivity.
Defined.

(* ===================================================================== *)
(** ** The listing *)
(* ===================================================================== *)

Lemma elem_of_list_files name w :
  name ∈ list_files w
  <-> is_Some (stored name w)
      /\ endswith name ".txt" = true /\ contains ".bak." name = false.
Proof.
  unfold list_files, stored, dir. destruct (base_dir w) as [d|]; cbn [default].
  - rewrite list_elem_of_filter, merge_sort_Permutation, list_elem_of_filter.
    rewrite elem_of_elements, elem_of_dom. split.
    + intros (Hc & Htxt & Hd). repeat split; [exact Hd | exact Htxt |].
      destruct (contains ".bak." name); [|reflexivity].
      cbn [negb] in Hc. rewrite andb_false_r in Hc. discriminate Hc.
    + intros (Hd & Htxt & Hbak). repeat split; [|exact Htxt|exact Hd].
      now rewrite (endswith_txt_not_lock _ Htxt), Hbak,
        (endswith_txt_not_log _ Htxt).
  - rewrite lookup_empty. split.
    + intros H. now apply elem_of_nil in H.
    + intros ([? H] & _). discriminate H.
Qed.

(** X7.  [list_files] returns exactly the names of the files in the
    directory that end in [.txt] and do not contain [.bak.] (the tests for
    [.lock] and [change.log] exclude nothing more); the names come in
    ascending order, each once; without a directory the listing is
    empty. *)
Theorem X7_list_files_lists w :
  (forall name,
     name ∈ list_files w
     <-> is_Some (stored name w)
         /\ endswith name ".txt" = true /\ contains ".bak." name = false)
  /\ StronglySorted String.le (list_files w)
  /\ NoDup (list_files w)
  /\ (base_dir w = None -> list_files w = []).
Proof.
  split; [intros name; apply elem_of_list_files|].
  unfold list_files. destruct (base_dir w) as [d|].
  - split; [|split; [|discriminate]].
    + apply StronglySorted_filter, StronglySorted_merge_sort; apply _.
    + apply NoDup_filter. rewrite merge_sort_Permutation.
      apply NoDup_filter, NoDup_elements.
  - repeat split; constructor.
Qed.

Lemma X7_witness :
  let w := snd (add_entry plain_env "b.txt" "k"
                  (snd (add_entry plain_env "a.txt" "k" no_dir))) in
  list_files w = ["a.txt"; "b.txt"]
  /\ ("change.log" ∈ list_files w
      <-> is_Some (stored "change.log" w)
          /\ endswith "change.log" ".txt" = true
          /\ contains ".bak." "change.log" = false)
  /\ list_files no_dir = [].
Proof.
  cbv zeta. split; [vm_compute; reflexivity|]. split.
  - apply (proj1 (X7_list_files_lists _)).
  - apply (proj2 (proj2 (proj2 (X7_list_files_lists no_dir)))). reflexivity.
Defined.

(* ===================================================================== *)
(** ** The three mutations, path by path *)
(* ===================================================================== *)

Module MutationFacts.

Section Shapes.
Context (env : Env).

Lemma not_IOFailure_400 d : error_kind (HTTPException 400 d) <> IOFailure.
Proof.
  cbn [error_kind].
  repeat match goal with |- context [if ?b then _ else _] => destruct b end;
    discriminate.
Qed.

Lemma validate_filename_Raise_kind filename e :
  validate_filename env filename = Raise e -> error_kind e = InvalidName.
Proof.
  unfold validate_filename.
  repeat match goal with |- context [if ?b then _ else _] => destruct b end;
    intros H; try discriminate H; injection H as <-; reflexivity.
Qed.

Lemma add_entry_blank filename raw w :
  validate_filename env filename = Return filename ->
  truthy (strip raw) = false ->
  add_entry env filename raw w
  = (Raise (HTTPException 400 "Empty entries are not allowed"), w).
Proof.
  intros Hv Hr. unfold add_entry, bind, lift.
  now rewrite Hv, (validate_entry_Raise _ _ Hr).
Qed.

Lemma update_entry_blank filename index raw w :
  validate_filename env filename = Return filename ->
  is_Some (stored filename w) ->
  truthy (strip raw) = false ->
  update_entry env filename index raw w
  = (Raise (HTTPException 400 "Empty entries are not allowed"), w).
Proof.
  intros Hv Hs Hr. unfold update_entry, bind, lift, gets, raise_if, ret.
  rewrite Hv, exists_stored, bool_decide_eq_true_2 by assumption.
  cbn [negb]. now rewrite (validate_entry_Raise _ _ Hr).
Qed.

Lemma add_entry_shape filename raw w :
  mutation_run env filename w
    (fun r => ("ADD", ("", added_value r)))
    (add_entry env filename raw w).
Proof.
  destruct (valid_or_rejected env filename) as [Hv|[e He]].
  - destruct (truthy (strip raw)) eqn:Hr.
    + rewrite (add_entry_run env filename raw w Hv Hr).
      destruct (mem _ _).
      * apply run_refused; [exact Hv | discriminate].
      * now apply run_committed.
    + rewrite (add_entry_blank _ _ _ Hv Hr). apply run_untouched. discriminate.
  - destruct (rejected_name env filename e w He) as (_ & -> & _).
    apply run_untouched. rewrite (validate_filename_Raise_kind _ _ He).
    discriminate.
Qed.

Lemma update_entry_shape filename index raw w :
  mutation_run env filename w
    (fun r => ("UPDATE", (updated_old_value r, updated_new_value r)))
    (update_entry env filename index raw w).
Proof.
  destruct (valid_or_rejected env filename) as [Hv|[e He]].
  - destruct (stored filename w) as [c|] eqn:Hs.
    + assert (Hs' : is_Some (stored filename w)) by (rewrite Hs; eauto).
      destruct (truthy (strip raw)) eqn:Hr.
      * rewrite (update_entry_run env filename index raw w Hv Hs' Hr).
        destruct (_ || _); [apply run_refused; [exact Hv | discriminate]|].
        destruct (_ && _); [apply run_refused; [exact Hv | discriminate]|].
        now apply run_committed.
      * rewrite (update_entry_blank _ _ _ _ Hv Hs' Hr).
        apply run_untouched. discriminate.
    + destruct (missing_list env filename w Hv Hs) as (_ & -> & _).
      apply run_untouched. discriminate.
  - destruct (rejected_name env filename e w He) as (_ & _ & -> & _).
    apply run_untouched. rewrite (validate_filename_Raise_kind _ _ He).
    discriminate.
Qed.

Lemma delete_entry_shape filename index w :
  mutation_run env filename w
    (fun r => ("DELETE", (deleted_value r, "")))
    (delete_entry env filename index w).
Proof.
  destruct (valid_or_rejected env filename) as [Hv|[e He]].
  - destruct (stored filename w) as [c|] eqn:Hs.
    + assert (Hs' : is_Some (stored filename w)) by (rewrite Hs; eauto).
      rewrite (delete_entry_run env filename index w Hv Hs').
      destruct (_ || _); [apply run_refused; [exact Hv | discriminate]|].
      now apply run_committed.
    + destruct (missing_list env filename w Hv Hs) as (_ & _ & -> & _).
      apply run_untouched. discriminate.
  - destruct (rejected_name env filename e w He) as (_ & _ & _ & -> & _).
    apply run_untouched. rewrite (validate_filename_Raise_kind _ _ He).
    discriminate.
Qed.

(** *** What a committed rewrite does to each file *)

Lemma stored_commit_other {A} filename action old new lines (result : A) w g :
  g <> filename -> g <> CHANGE_LOG ->
  stored g (snd (commit env filename action old new lines result w))
  = stored g w.
Proof.
  intros Hg Hlog. unfold commit. destruct (log_writable env); cbn [snd].
  - rewrite stored_log_change by assumption.
    now apply stored_write_file_lines_other.
  - rewrite stored_mkdir. now apply stored_write_file_lines_other.
Qed.


Lemma ledger_create_backup filename w :
  validate_filename env filename = Return filename ->
  ledger (snd (create_backup env filename w)) = ledger w.
Proof.
  intros Hv. unfold ledger.
  rewrite stored_create_backup_other; [reflexivity|].
  intros E. symmetry in E. now apply backup_path_not_log in E.
Qed.

(** *** What every run does, whatever its path *)

Section Run.
Context {A : Type} (filename : string) (w : World)
        (payload : A -> string * (string * string))
        (run : outcome A * World).
Hypothesis Hrun : mutation_run env filename w payload run.


Lemma run_frame g :
  g <> filename -> g <> backup_path env filename -> g <> CHANGE_LOG ->
  stored g (snd run) = stored g w.
Proof.
  intros Hg Hb Hl.
  destruct Hrun as [e _|e Hv _|action old new lines result Hv Hp]; cbn [snd].
  - reflexivity.
  - now apply stored_create_backup_other.
  - rewrite stored_commit_other by assumption.
    now apply stored_create_backup_other.
Qed.

Lemma run_failure e :
  fst run = Raise e -> error_kind e <> IOFailure ->
  stored filename (snd run) = stored filename w /\ ledger (snd run) = ledger w.
Proof.
  intros He Hk.
  destruct Hrun as [e' _|e' Hv _|action old new lines result Hv Hp];
    cbn [fst snd] in *.
  - auto.
  - split; [now apply (stored_create_backup env filename filename)
           | now apply ledger_create_backup].
  - unfold commit in He. destruct (log_writable env); [discriminate He|].
    cbn [fst] in He. injection He as <-. now contradiction Hk.
Qed.

Lemma run_success r :
  fst run = Return r ->
  validate_filename env filename = Return filename
  /\ log_writable env = true
  /\ (forall content, stored filename w = Some content ->
        stored (backup_path env filename) (snd run)
        = Some (universal_newlines content))
  /\ (stored filename w = None ->
        stored (backup_path env filename) (snd run)
        = stored (backup_path env filename) w).
Proof.
  intros Hr.
  destruct Hrun as [e' _|e' Hv _|action old new lines result Hv Hp];
    cbn [fst snd] in *; try discriminate Hr.
  split; [exact Hv|]. split.
  { unfold commit in Hr. now destruct (log_writable env). }
  assert (Hb1 : backup_path env filename <> filename)
    by (eapply backup_path_fresh, Hv).
  assert (Hb2 : backup_path env filename <> CHANGE_LOG)
    by now apply backup_path_not_log.
  split.
  - intros content Hs. rewrite stored_commit_other by assumption.
    now apply stored_create_backup_copy.
  - intros Hs. rewrite stored_commit_other by assumption.
    rewrite create_backup_run, exists_stored, Hs.
    rewrite bool_decide_eq_false_2; [reflexivity|]. now intros [? ?].
Qed.

End Run.

End Shapes.

End MutationFacts.
Import MutationFacts.

(* ===================================================================== *)
(** ** Ledger, backups and the other files under a mutation *)
(* ===================================================================== *)







(** X9.  A mutating request on a list touches at most three files: the
    list file, its backup and the ledger.  Every other file of the
    directory is the same afterwards, whatever the outcome. *)
Theorem X9_mutation_touches_three_files env filename w g :
  g <> filename -> g <> backup_path env filename -> g <> CHANGE_LOG ->
  (forall raw, stored g (snd (add_entry env filename raw w)) = stored g w)
  /\ (forall index raw,
        stored g (snd (update_entry env filename index raw w)) = stored g w)
  /\ (forall index,
        stored g (snd (delete_entry env filename index w)) = stored g w).
Proof.
  intros Hg Hb Hl. split; [|split].
  - intros raw.
    now apply (run_frame env _ _ _ _ (add_entry_shape env filename raw w)).
  - intros i raw.
    now apply (run_frame env _ _ _ _ (update_entry_shape env filename i raw w)).
  - intros i.
    now apply (run_frame env _ _ _ _ (delete_entry_shape env filename i w)).
Qed.

Lemma X9_witness :
  let w := one_file "b.txt" "m" in
  stored "b.txt" (snd (add_entry plain_env "a.txt" "k" w)) = stored "b.txt" w.
Proof.
  cbv zeta.
  apply (proj1 (X9_mutation_touches_three_files plain_env "a.txt"
                  (one_file "b.txt" "m") "b.txt"
                  ltac:(discriminate) ltac:(vm_compute; discriminate)
                  ltac:(discriminate))).
Defined.

(** X10.  A mutating request that raises anything but the ledger's I/O
    error (a rejected name, a missing list, an empty value, a bad index, a
    duplicate) leaves the list file and the ledger exactly as they were. *)
Theorem X10_failed_mutation_keeps_list env filename w :
  (forall raw e,
     fst (add_entry env filename raw w) = Raise e ->
     error_kind e <> IOFailure ->
     stored filename (snd (add_entry env filename raw w)) = stored filename w
     /\ ledger (snd (add_entry env filename raw w)) = ledger w)
  /\ (forall index raw e,
     fst (update_entry env filename index raw w) = Raise e ->
     error_kind e <> IOFailure ->
     stored filename (snd (update_entry env filename index raw w))
     = stored filename w
     /\ ledger (snd (update_entry env filename index raw w)) = ledger w)
  /\ (forall index e,
     fst (delete_entry env filename index w) = Raise e ->
     error_kind e <> IOFailure ->
     stored filename (snd (delete_entry env filename index w))
     = stored filename w
     /\ ledger (snd (delete_entry env filename index w)) = ledger w).
Proof.
  split; [|split].
  - intros raw e He Hk.
    now apply (run_failure env _ _ _ _ (add_entry_shape env filename raw w) e).
  - intros i raw e He Hk.
    now apply (run_failure env _ _ _ _
                 (update_entry_shape env filename i raw w) e).
  - intros i e He Hk.
    now apply (run_failure env _ _ _ _
                 (delete_entry_shape env filename i w) e).
Qed.

Lemma X10_witness :
  let w := one_file "a.txt" ("k" ++ NL) in
  stored "a.txt" (snd (delete_entry plain_env "a.txt" 7 w)) = stored "a.txt" w
  /\ ledger (snd (delete_entry plain_env "a.txt" 7 w)) = ledger w.
Proof.
  cbv zeta.
  apply (proj2 (proj2 (X10_failed_mutation_keeps_list plain_env "a.txt"
                         (one_file "a.txt" ("k" ++ NL)))) 7%Z INVALID_INDEX).
  - vm_compute. reflexivity.
  - discriminate.
Defined.

(** X11.  A mutating request that succeeds on a list that existed leaves
    a backup, named by the list's name, [.bak.] and the time stamp, that
    holds the text the list file had before the request; one that creates
    the list leaves the backup path as it was.  The request was then made
    under an accepted name and with a writable ledger. *)
Theorem X11_success_leaves_backup env filename w :
  let copy := filename ++ ".bak." ++ strftime_backup (backup_now env) in
  forall w' : World,
  (exists raw r, add_entry env filename raw w = (Return r, w'))
  \/ (exists index raw r, update_entry env filename index raw w = (Return r, w'))
  \/ (exists index r, delete_entry env filename index w = (Return r, w')) ->
  validate_filename env filename = Return filename
  /\ log_writable env = true
  /\ (forall content, stored filename w = Some content ->
        stored copy w' = Some (universal_newlines content))
  /\ (stored filename w = None -> stored copy w' = stored copy w).
Proof.
  cbv zeta. intros w' H.
  assert (Hgen : validate_filename env filename = Return filename
                 /\ log_writable env = true
                 /\ (forall content, stored filename w = Some content ->
                       stored (backup_path env filename) w'
                       = Some (universal_newlines content))
                 /\ (stored filename w = None ->
                       stored (backup_path env filename) w'
                       = stored (backup_path env filename) w)).
  { destruct H as [(raw & r & H)|[(i & raw & r & H)|(i & r & H)]].
    - pose proof (run_success env _ _ _ _ (add_entry_shape env filename raw w) r)
        as Hs. rewrite H in Hs. now apply Hs.
    - pose proof (run_success env _ _ _ _
                    (update_entry_shape env filename i raw w) r) as Hs.
      rewrite H in Hs. now apply Hs.
    - pose proof (run_success env _ _ _ _
                    (delete_entry_shape env filename i w) r) as Hs.
      rewrite H in Hs. now apply Hs. }
  destruct Hgen as (Hv & Hgen). rewrite <- (backup_path_valid env _ Hv).
  now split.
Qed.

Lemma X11_witness :
  let w := one_file "a.txt" ("k" ++ NL ++ "m" ++ NL) in
  stored "a.txt.bak.20240102030405" (snd (delete_entry plain_env "a.txt" 0 w))
  = Some ("k" ++ NL ++ "m" ++ NL).
Proof.
  cbv zeta.
  assert (Hrun : exists index r,
             delete_entry plain_env "a.txt" index
               (one_file "a.txt" ("k" ++ NL ++ "m" ++ NL))
             = (Return r,
                snd (delete_entry plain_env "a.txt" 0
                       (one_file "a.txt" ("k" ++ NL ++ "m" ++ NL))))).
  { exists 0%Z, {| deleted_success := true; deleted_value := "k" |}.
    vm_compute. reflexivity. }
  destruct (X11_success_leaves_backup plain_env "a.txt"
              (one_file "a.txt" ("k" ++ NL ++ "m" ++ NL)) _
              (or_intror (or_intror Hrun))) as (_ & _ & Hcopy & _).
  exact (Hcopy ("k" ++ NL ++ "m" ++ NL) eq_refl).
Defined.


(* ===================================================================== *)
(** ** Indexes and duplicates *)
(* ===================================================================== *)

Lemma mem_true value lines : value ∈ lines -> mem value lines = true.
Proof.
  unfold mem. intros H. apply existsb_exists. exists value.
  split; [now apply list_elem_of_In | apply String.eqb_refl].
Qed.

Lemma index_first value lines j :
  NoDup lines -> lines !! j = Some value -> Py.index value lines = Some j.
Proof.
  intros Hnd. revert j. induction Hnd as [|l ls Hl Hnd IH]; intros j Hj;
    [discriminate Hj|].
  cbn [Py.index]. destruct j as [|j].
  - injection Hj as ->. now rewrite String.eqb_refl.
  - cbn in Hj. destruct (String.eqb_spec l value) as [->|_].
    + exfalso. apply Hl. eapply list_elem_of_lookup_2, Hj.
    + now rewrite (IH j Hj).
Qed.

Lemma read_nonempty_stored filename w v :
  v ∈ read_file_lines filename w -> is_Some (stored filename w).
Proof.
  rewrite read_file_lines_stored. destruct (stored filename w); [eauto|].
  intros H. now apply elem_of_nil in H.
Qed.

(** X12.  On an existing list, an index below 0 or not below the number
    of entries makes [delete_entry] and, for a non-empty value,
    [update_entry] raise [IndexOutOfRange]; the entries of the list are the
    same afterwards.  A negative index is never taken from the end. *)
Theorem X12_index_out_of_range env filename idx w :
  validate_filename env filename = Return filename ->
  is_Some (stored filename w) ->
  (idx < 0 \/ Z.of_nat (length (read_file_lines filename w)) <= idx)%Z ->
  error_kind INVALID_INDEX = IndexOutOfRange
  /\ fst (delete_entry env filename idx w) = Raise INVALID_INDEX
  /\ read_file_lines filename (snd (delete_entry env filename idx w))
     = read_file_lines filename w
  /\ (forall raw, strip raw <> "" ->
        fst (update_entry env filename idx raw w) = Raise INVALID_INDEX
        /\ read_file_lines filename (snd (update_entry env filename idx raw w))
           = read_file_lines filename w).
Proof.
  intros Hv Hs Hidx.
  assert (Hb : ((idx <? 0)%Z
                || (Z.of_nat (length (read_file_lines filename w)) <=? idx)%Z)
               = true).
  { apply orb_true_iff. destruct Hidx; [left; now apply Z.ltb_lt
                                       | right; now apply Z.leb_le]. }
  split; [reflexivity|].
  rewrite (delete_entry_run env filename idx w Hv Hs), Hb. cbn [fst snd].
  split; [reflexivity|]. split; [now apply read_after_backup|].
  intros raw Hraw.
  assert (Hr : truthy (strip raw) = true) by now destruct (strip raw).
  rewrite (update_entry_run env filename idx raw w Hv Hs Hr), Hb. cbn [fst snd].
  split; [reflexivity | now apply read_after_backup].
Qed.

Lemma X12_witness :
  let w := one_file "a.txt" ("k" ++ NL ++ "m" ++ NL) in
  fst (delete_entry plain_env "a.txt" (-1) w) = Raise INVALID_INDEX
  /\ fst (update_entry plain_env "a.txt" 2 "z" w) = Raise INVALID_INDEX.
Proof.
  cbv zeta. split.
  - apply (X12_index_out_of_range plain_env "a.txt" (-1)
             (one_file "a.txt" ("k" ++ NL ++ "m" ++ NL)) eq_refl).
    + exists ("k" ++ NL ++ "m" ++ NL). reflexivity.
    + left. lia.
  - apply (X12_index_out_of_range plain_env "a.txt" 2
             (one_file "a.txt" ("k" ++ NL ++ "m" ++ NL)) eq_refl).
    + exists ("k" ++ NL ++ "m" ++ NL). reflexivity.
    + right. vm_compute. discriminate.
    + discriminate.
Defined.

(** X13.  Under an accepted name, [add_entry] raises [DuplicateEntry] for
    a value whose trimmed form is an entry of the list; and on a list whose
    entries are pairwise distinct, [update_entry] raises it when the
    trimmed value is the entry at an index other than the one updated.
    The comparison is exact: case and inner blanks count. *)
Theorem X13_duplicate_rejected env filename w :
  validate_filename env filename = Return filename ->
  let old := read_file_lines filename w in
  error_kind ALREADY_EXISTS = DuplicateEntry
  /\ (forall raw,
        strip raw ∈ old ->
        fst (add_entry env filename raw w) = Raise ALREADY_EXISTS)
  /\ (forall raw (i j : nat),
        NoDup old -> i < length old -> i <> j ->
        old !! j = Some (strip raw) ->
        fst (update_entry env filename (Z.of_nat i) raw w)
        = Raise ALREADY_EXISTS).
Proof.
  intros Hv. cbv zeta. split; [reflexivity|]. split.
  - intros raw Hin.
    assert (Hr : truthy (strip raw) = true).
    { pose proof (read_file_lines_props filename w) as Hp.
      rewrite Forall_forall in Hp. destruct (Hp _ Hin) as [Hnb _].
      unfold nonblank in Hnb. now rewrite strip_idem in Hnb. }
    rewrite (add_entry_run env filename raw w Hv Hr), (mem_true _ _ Hin).
    reflexivity.
  - intros raw i j Hnd Hi Hij Hj.
    assert (Hin : strip raw ∈ read_file_lines filename w)
      by (eapply list_elem_of_lookup_2, Hj).
    assert (Hr : truthy (strip raw) = true).
    { pose proof (read_file_lines_props filename w) as Hp.
      rewrite Forall_forall in Hp. destruct (Hp _ Hin) as [Hnb _].
      unfold nonblank in Hnb. now rewrite strip_idem in Hnb. }
    rewrite (update_entry_run env filename (Z.of_nat i) raw w Hv
               (read_nonempty_stored _ _ _ Hin) Hr).
    replace ((Z.of_nat i <? 0)%Z
             || (Z.of_nat (length (read_file_lines filename w)) <=? Z.of_nat i)%Z)
      with false.
    2:{ symmetry. apply orb_false_iff. split; [apply Z.ltb_ge | apply Z.leb_gt]; lia. }
    rewrite (mem_true _ _ Hin), (index_first _ _ _ Hnd Hj), Nat2Z.id.
    rewrite bool_decide_eq_false_2 by congruence. reflexivity.
Qed.

Lemma X13_witness :
  let w := one_file "a.txt" ("k" ++ NL ++ "m" ++ NL) in
  fst (add_entry plain_env "a.txt" " m " w) = Raise ALREADY_EXISTS
  /\ fst (update_entry plain_env "a.txt" 0 " m " w) = Raise ALREADY_EXISTS.
Proof.
  cbv zeta.
  destruct (X13_duplicate_rejected plain_env "a.txt"
              (one_file "a.txt" ("k" ++ NL ++ "m" ++ NL)) eq_refl)
    as (_ & Hadd & Hupd).
  assert (Hold : read_file_lines "a.txt" (one_file "a.txt" ("k" ++ NL ++ "m" ++ NL))
                 = ["k"; "m"]) by (vm_compute; reflexivity).
  split.
  - apply Hadd. rewrite Hold. vm_compute. right. left.
  - apply (Hupd " m " 0%nat 1%nat).
    + rewrite Hold. apply NoDup_cons. split; [|apply NoDup_singleton].
      intros Hin. apply list_elem_of_singleton in Hin. discriminate Hin.
    + rewrite Hold. cbn. lia.
    + discriminate.
    + rewrite Hold. reflexivity.
Defined.

(* ===================================================================== *)
(** ** How the operations compose *)
(* ===================================================================== *)

Lemma valid_name_endswith env filename :
  validate_filename env filename = Return filename ->
  endswith filename ".txt" = true.
Proof.
  intros H. destruct (valid_name_shape env _ _ H) as (c & y & ->).
  rewrite <- append_cons. apply endswith_append.
Qed.

(** X14.  On a list whose entries are pairwise distinct, updating an entry
    to the value it already holds is no duplicate: the request succeeds
    with the same old and new value and the list reads as before. *)
Theorem X14_update_to_same_value env filename (i : nat) raw w :
  validate_filename env filename = Return filename ->
  log_writable env = true ->
  NoDup (read_file_lines filename w) ->
  read_file_lines filename w !! i = Some (strip raw) ->
  exists r w',
    update_entry env filename (Z.of_nat i) raw w = (Return r, w')
    /\ updated_old_value r = strip raw
    /\ updated_new_value r = strip raw
    /\ read_file_lines filename w' = read_file_lines filename w.
Proof.
  intros Hv Hlog Hnd Hi.
  pose proof (valid_name_not_log env _ _ Hv) as Hne.
  assert (Hin : strip raw ∈ read_file_lines filename w)
    by (eapply list_elem_of_lookup_2, Hi).
  assert (Hr : truthy (strip raw) = true).
  { pose proof (read_file_lines_props filename w) as Hp.
    rewrite Forall_forall in Hp. destruct (Hp _ Hin) as [Hnb _].
    unfold nonblank in Hnb. now rewrite strip_idem in Hnb. }
  rewrite (update_entry_run env filename (Z.of_nat i) raw w Hv
             (read_nonempty_stored _ _ _ Hin) Hr).
  pose proof (lookup_lt_Some _ _ _ Hi) as Hlt.
  replace ((Z.of_nat i <? 0)%Z
           || (Z.of_nat (length (read_file_lines filename w)) <=? Z.of_nat i)%Z)
    with false.
  2:{ symmetry. apply orb_false_iff. split; [apply Z.ltb_ge | apply Z.leb_gt]; lia. }
  rewrite (index_first _ _ _ Hnd Hi), Nat2Z.id, Hi.
  rewrite bool_decide_eq_true_2 by reflexivity.
  rewrite andb_false_r, list_insert_id by exact Hi. cbn [default].
  unfold commit at 1. rewrite Hlog. do 2 eexists.
  split; [reflexivity|]. split; [reflexivity|]. split; [reflexivity|].
  rewrite read_file_lines_stored, stored_log_change by assumption.
  rewrite stored_write_file_lines.
  apply lines_of_file_text, read_file_lines_props.
Qed.

Lemma X14_witness :
  let w := one_file "a.txt" ("k" ++ NL ++ "m" ++ NL) in
  exists r w',
    update_entry plain_env "a.txt" 1 " m " w = (Return r, w')
    /\ updated_old_value r = "m"
    /\ updated_new_value r = "m"
    /\ read_file_lines "a.txt" w' = read_file_lines "a.txt" w.
Proof.
  cbv zeta.
  assert (Hold : read_file_lines "a.txt" (one_file "a.txt" ("k" ++ NL ++ "m" ++ NL))
                 = ["k"; "m"]) by (vm_compute; reflexivity).
  apply (X14_update_to_same_value plain_env "a.txt" 1 " m "
           (one_file "a.txt" ("k" ++ NL ++ "m" ++ NL)) eq_refl eq_refl).
  - rewrite Hold. apply NoDup_cons. split; [|apply NoDup_singleton].
    intros Hin. apply list_elem_of_singleton in Hin. discriminate Hin.
  - rewrite Hold. reflexivity.
Defined.

(** X15.  Deleting at the index a successful [add_entry] returned, right
    after it, gives back the value that was added (when it is a single
    line) and restores the entries the list had before the add. *)
Theorem X15_add_then_delete env filename raw w r w1 :
  one_line (strip raw) ->
  add_entry env filename raw w = (Return r, w1) ->
  exists r2 w2,
    delete_entry env filename (added_index r) w1 = (Return r2, w2)
    /\ deleted_value r2 = strip raw
    /\ read_file_lines filename w2 = read_file_lines filename w.
Proof.
  intros Hol H.
  destruct (add_entry_Return_inv env _ _ _ _ _ H) as (Hv & Hr).
  pose proof (valid_name_not_log env _ _ Hv) as Hne.
  rewrite (add_entry_run env filename raw w Hv Hr) in H.
  destruct (mem _ _); [discriminate H|].
  destruct (commit_Return env _ _ _ _ _ _ _ _ _ H) as (Hlog & ->).
  assert (Hcl : Forall (fun l => nonblank l /\ one_line l)
                  (read_file_lines filename w ++ [strip raw])).
  { apply Forall_app. split; [apply read_file_lines_props|].
    apply Forall_singleton. split; [|exact Hol].
    unfold nonblank. now rewrite strip_idem. }
  pose proof (read_after_commit_clean env _ _ _ _ _ _ _ _ _ Hne Hcl H) as Hread.
  destruct (read_after_commit env _ _ _ _ _ _ _ _ _ Hne H) as (_ & Hs & _).
  cbn [added_index]. set (old := read_file_lines filename w) in *.
  assert (Hidx : Z.to_nat (Z.of_nat (length (old ++ [strip raw])%list) - 1)
                 = length old) by (rewrite length_app; cbn [length]; lia).
  rewrite (delete_entry_run env filename _ w1 Hv) by (rewrite Hs; eauto).
  rewrite Hread, Hidx.
  replace ((Z.of_nat (length (old ++ [strip raw])%list) - 1 <? 0)%Z
           || (Z.of_nat (length (old ++ [strip raw])%list)
               <=? Z.of_nat (length (old ++ [strip raw])%list) - 1)%Z)
    with false.
  2:{ symmetry. apply orb_false_iff. rewrite length_app. cbn [length].
      split; [apply Z.ltb_ge | apply Z.leb_gt]; lia. }
  unfold commit at 1. rewrite Hlog. do 2 eexists.
  split; [reflexivity|]. split.
  - cbn [deleted_value]. now rewrite list_lookup_middle.
  - rewrite read_file_lines_stored, stored_log_change by assumption.
    rewrite stored_write_file_lines.
    replace (delete (length old) (old ++ [strip raw])%list) with old.
    + apply lines_of_file_text, read_file_lines_props.
    + rewrite delete_take_drop, take_app_length.
      rewrite drop_ge by (rewrite length_app; cbn [length]; lia).
      now rewrite app_nil_r.
Qed.

Lemma X15_witness :
  let w := one_file "a.txt" ("k" ++ NL) in
  exists r2 w2,
    delete_entry plain_env "a.txt" 1 (snd (add_entry plain_env "a.txt" " m " w))
    = (Return r2, w2)
    /\ deleted_value r2 = "m"
    /\ read_file_lines "a.txt" w2 = read_file_lines "a.txt" w.
Proof.
  cbv zeta.
  apply (X15_add_then_delete plain_env "a.txt" " m "
           (one_file "a.txt" ("k" ++ NL))
           {| added_success := true; added_index := 1; added_value := "m" |}).
  - split; reflexivity.
  - vm_compute. reflexivity.
Defined.

(** X16.  The first [add_entry] under an accepted name whose file is
    absent creates the list: it answers with index 0 and the trimmed value,
    the list file holds that value and a line feed, the directory exists,
    and the name is in the listing from then on unless it contains
    [.bak.]. *)
Theorem X16_first_add_creates_list env filename raw w :
  validate_filename env filename = Return filename ->
  log_writable env = true ->
  stored filename w = None ->
  strip raw <> "" ->
  exists r w',
    add_entry env filename raw w = (Return r, w')
    /\ added_index r = 0%Z
    /\ added_value r = strip raw
    /\ stored filename w' = Some (strip raw ++ NL)
    /\ (filename ∈ list_files w' <-> contains ".bak." filename = false).
Proof.
  intros Hv Hlog Hs Hraw.
  pose proof (valid_name_not_log env _ _ Hv) as Hne.
  assert (Hr : truthy (strip raw) = true) by now destruct (strip raw).
  rewrite (add_entry_run env filename raw w Hv Hr).
  rewrite read_file_lines_stored, Hs. cbn [mem existsb app length].
  unfold commit at 1. rewrite Hlog. do 2 eexists.
  split; [reflexivity|]. split; [reflexivity|]. split; [reflexivity|].
  assert (Hst : stored filename
                  (snd (log_change env filename "ADD" "" (strip raw)
                          (write_file_lines filename [strip raw]
                             (snd (create_backup env filename w)))))
                = Some (strip raw ++ NL)).
  { rewrite stored_log_change by assumption. apply stored_write_file_lines. }
  split; [exact Hst|].
  rewrite elem_of_list_files, Hst, (valid_name_endswith env _ Hv).
  split; [now intros (_ & _ & ?) | eauto].
Qed.

Lemma X16_witness :
  exists r w',
    add_entry plain_env "a.txt" " k " no_dir = (Return r, w')
    /\ added_index r = 0%Z
    /\ added_value r = "k"
    /\ stored "a.txt" w' = Some ("k" ++ NL)
    /\ ("a.txt" ∈ list_files w' <-> contains ".bak." "a.txt" = false).
Proof.
  apply (X16_first_add_creates_list plain_env "a.txt" " k " no_dir
           eq_refl eq_refl eq_refl).
  discriminate.
Defined.

(** X17.  Export and listing agree on every file, whatever wrote it.
    Neither changes anything; they fail together, with the same error, and
    when they succeed the exported text holds no carriage return and its
    non-blank pieces between line feeds are the values of the listed
    entries, in order. *)
Theorem X17_export_agrees_with_listing env filename w :
  snd (export_file env filename w) = w
  /\ snd (get_file_entries env filename w) = w
  /\ match fst (export_file env filename w),
           fst (get_file_entries env filename w) with
     | Return text, Return fe =>
         has_char CR text = false
         /\ split_nonblank text = map entry_value (fe_entries fe)
     | Raise e1, Raise e2 => e1 = e2
     | _, _ => False
     end.
Proof.
  destruct (valid_or_rejected env filename) as [Hv|[e He]].
  - destruct (stored filename w) as [c|] eqn:Hs.
    + unfold export_file, get_file_entries, bind, lift, gets, raise_if,
        raise, ret.
      rewrite Hv, exists_stored, Hs, bool_decide_eq_true_2 by eauto.
      cbn [negb fst snd fe_entries]. repeat split.
      * apply universal_newlines_no_CR.
      * rewrite (entry_values_imap (fun i => i)).
        rewrite read_file_lines_stored, Hs. unfold read_text.
        unfold stored in Hs. rewrite Hs. cbn [default]. symmetry.
        apply lines_of_text_split, universal_newlines_no_CR.
    + destruct (missing_list env filename w Hv Hs) as (-> & _ & _ & ->).
      repeat split.
  - destruct (rejected_name env filename e w He) as (-> & _ & _ & _ & ->).
    repeat split.
Qed.

Lemma mutation_succeeds_facts env filename w w' :
  mutation_succeeds env filename w w' ->
  validate_filename env filename = Return filename
  /\ (exists lines, stored filename w' = Some (file_text lines))
  /\ (forall content, stored filename w = Some content ->
        stored (backup_path env filename) w'
        = Some (universal_newlines content)).
Proof.
  assert (Hgen : forall A payload (run : outcome A * World) r,
            mutation_run env filename w payload run ->
            run = (Return r, w') ->
            validate_filename env filename = Return filename
            /\ (exists lines, stored filename w' = Some (file_text lines))
            /\ (forall content, stored filename w = Some content ->
                  stored (backup_path env filename) w'
                  = Some (universal_newlines content))).
  { intros A payload run r Hrun Heq.
    destruct (run_success env _ _ _ _ Hrun r) as (Hv & _ & Hcopy & _).
    { now rewrite Heq. }
    split; [exact Hv|]. split.
    - destruct Hrun as [e' _|e' _ _|action old new lines result _ Hp];
        try discriminate Heq.
      exists lines. replace w' with (snd (Return r, w')) by reflexivity.
      rewrite <- Heq. apply commit_stored. eapply valid_name_not_log, Hv.
    - intros content Hs. specialize (Hcopy content Hs).
      now rewrite Heq in Hcopy. }
  intros [(raw & r & H)|[(i & raw & r & H)|(i & r & H)]].
  - exact (Hgen _ _ _ r (add_entry_shape env filename raw w) H).
  - exact (Hgen _ _ _ r (update_entry_shape env filename i raw w) H).
  - exact (Hgen _ _ _ r (delete_entry_shape env filename i w) H).
Qed.

(** X18.  Backups are told apart by the second only.  When two mutations
    of a list succeed one after the other under the same clock reading,
    the one backup file holds, after the second, the text the list file
    had between the two: the copy taken by the first mutation has been
    overwritten. *)
Theorem X18_same_second_backup_overwritten env env' filename w w1 w2 :
  backup_now env' = backup_now env ->
  mutation_succeeds env filename w w1 ->
  mutation_succeeds env' filename w1 w2 ->
  let copy := filename ++ ".bak." ++ strftime_backup (backup_now env) in
  exists between,
    stored filename w1 = Some (file_text between)
    /\ stored copy w2 = Some (universal_newlines (file_text between))
    /\ (forall before, stored filename w = Some before ->
          stored copy w1 = Some (universal_newlines before)).
Proof.
  intros Hclock H1 H2. cbv zeta.
  destruct (mutation_succeeds_facts _ _ _ _ H1) as (Hv & (between & Hs1) & Hc1).
  destruct (mutation_succeeds_facts _ _ _ _ H2) as (Hv' & _ & Hc2).
  exists between. split; [exact Hs1|].
  rewrite <- (backup_path_valid env _ Hv). split; [|exact Hc1].
  replace (backup_path env filename) with (backup_path env' filename)
    by (unfold backup_path; now rewrite Hclock).
  now apply Hc2.
Qed.

Lemma X18_witness :
  let w := one_file "a.txt" ("k" ++ NL) in
  let w1 := snd (add_entry plain_env "a.txt" "m" w) in
  let w2 := snd (delete_entry plain_env "a.txt" 0 w1) in
  exists between,
    stored "a.txt" w1 = Some (file_text between)
    /\ stored "a.txt.bak.20240102030405" w2
       = Some (universal_newlines (file_text between))
    /\ (forall before, stored "a.txt" w = Some before ->
          stored "a.txt.bak.20240102030405" w1
          = Some (universal_newlines before)).
Proof.
  cbv zeta.
  apply (X18_same_second_backup_overwritten plain_env plain_env "a.txt"
           (one_file "a.txt" ("k" ++ NL))
           (snd (add_entry plain_env "a.txt" "m" (one_file "a.txt" ("k" ++ NL))))
           (snd (delete_entry plain_env "a.txt" 0
                   (snd (add_entry plain_env "a.txt" "m"
                           (one_file "a.txt" ("k" ++ NL))))))
           eq_refl).
  - left. exists "m", {| added_success := true; added_index := 1;
                        added_value := "m" |}.
    vm_compute. reflexivity.
  - right. right.
    exists 0%Z, {| deleted_success := true; deleted_value := "k" |}.
    vm_compute. reflexivity.
Defined.

(** X19.  For a value that is a single line after trimming, under an
    accepted name and with a writable ledger, [add_entry] either finds the
    trimmed value among the entries, raises [DuplicateEntry] and leaves the
    entries as they are, or appends it: the answer carries the former
    number of entries as index, and the list reads as before with the
    value at its end. *)
Theorem X19_add_appends_single_line env filename raw w :
  validate_filename env filename = Return filename ->
  strip raw <> "" ->
  one_line (strip raw) ->
  log_writable env = true ->
  let old := read_file_lines filename w in
  (strip raw ∈ old ->
   exists w', add_entry env filename raw w = (Raise ALREADY_EXISTS, w')
              /\ read_file_lines filename w' = old)
  /\ (strip raw ∉ old ->
      exists r w', add_entry env filename raw w = (Return r, w')
                   /\ added_index r = Z.of_nat (length old)
                   /\ added_value r = strip raw
                   /\ read_file_lines filename w' = (old ++ [strip raw])%list).
Proof.
  intros Hv Hraw Hol Hlog. cbv zeta.
  assert (Hr : truthy (strip raw) = true) by now destruct (strip raw).
  destruct (add_entry_single_line env filename raw w Hv Hr Hol Hlog)
    as [Hdup Hnew].
  split.
  - intros Hin. apply Hdup, mem_true, Hin.
  - intros Hnin.
    assert (Hm : mem (strip raw) (read_file_lines filename w) = false).
    { destruct (mem _ _) eqn:E; [|reflexivity]. exfalso. apply Hnin.
      unfold mem in E. apply existsb_exists in E as (x & Hx & E).
      apply String.eqb_eq in E. subst x. now apply list_elem_of_In. }
    destruct (Hnew Hm) as (r & w' & Hrun & Hidx & Hread).
    exists r, w'. repeat split; try assumption.
    rewrite (add_entry_run env filename raw w Hv Hr), Hm in Hrun.
    destruct (commit_Return env _ _ _ _ _ _ _ _ _ Hrun) as (_ & ->).
    reflexivity.
Qed.

Lemma X19_witness :
  let w := one_file "a.txt" ("k" ++ NL) in
  exists r w', add_entry plain_env "a.txt" " m " w = (Return r, w')
               /\ added_index r = 1%Z
               /\ added_value r = "m"
               /\ read_file_lines "a.txt" w' = ["k"; "m"].
Proof.
  cbv zeta.
  apply (proj2 (X19_add_appends_single_line plain_env "a.txt" " m "
                  (one_file "a.txt" ("k" ++ NL)) eq_refl
                  ltac:(discriminate) (conj eq_refl eq_refl) eq_refl)).
  replace (read_file_lines "a.txt" (one_file "a.txt" ("k" ++ NL))) with ["k"]
    by (vm_compute; reflexivity).
  intros Hin. apply list_elem_of_singleton in Hin. discriminate Hin.
Defined.

(** X20.  For a value that is a single line after trimming, a successful
    [update_entry] at index [i] leaves a list of the same length that holds
    the trimmed value at [i] and its former entries at every other index;
    the answer carries the former entry at [i] as old value. *)
Theorem X20_update_replaces_single_line env filename idx raw w r w' :
  one_line (strip raw) ->
  update_entry env filename idx raw w = (Return r, w') ->
  let old := read_file_lines filename w in
  let new := read_file_lines filename w' in
  exists i : nat,
    idx = Z.of_nat i
    /\ old !! i = Some (updated_old_value r)
    /\ updated_new_value r = strip raw
    /\ new = <[i := strip raw]> old
    /\ length new = length old
    /\ new !! i = Some (strip raw)
    /\ (forall j : nat, j <> i -> new !! j = old !! j).
Proof.
  intros Hol H. cbv zeta.
  destruct (update_entry_single_line env filename idx raw w r w' Hol H)
    as (i & Hidx & Hnew & Hi & Hother).
  exists i. split; [exact Hidx|].
  destruct (update_entry_Return_inv env _ _ _ _ _ _ H) as (Hv & Hs & Hr).
  pose proof (valid_name_not_log env _ _ Hv) as Hne.
  pose proof H as H'.
  rewrite (update_entry_run env filename idx raw w Hv Hs Hr) in H'.
  destruct (_ || _) eqn:Hrange; [discriminate H'|].
  destruct (_ && _); [discriminate H'|].
  destruct (index_in_range _ _ Hrange) as (_ & v & Hl).
  assert (Hcl : Forall (fun l => nonblank l /\ one_line l)
                  (<[Z.to_nat idx := strip raw]> (read_file_lines filename w))).
  { apply Forall_insert; [apply read_file_lines_props|]. split; [|exact Hol].
    unfold nonblank. now rewrite strip_idem. }
  pose proof (read_after_commit_clean env _ _ _ _ _ _ _ _ _ Hne Hcl H') as Hread.
  destruct (commit_Return env _ _ _ _ _ _ _ _ _ H') as (_ & ->).
  assert (Hn : Z.to_nat idx = i) by lia. rewrite Hn in *.
  cbn [updated_old_value]. rewrite Hl. cbn [default].
  split; [reflexivity|]. split; [exact Hnew|]. split; [exact Hread|].
  split; [rewrite Hread; apply length_insert|]. split; assumption.
Qed.

Lemma X20_witness :
  let w := one_file "a.txt" ("k" ++ NL ++ "m" ++ NL) in
  let w' := snd (update_entry plain_env "a.txt" 0 " z " w) in
  exists i : nat,
    0%Z = Z.of_nat i
    /\ read_file_lines "a.txt" w !! i = Some "k"
    /\ "z" = strip " z "
    /\ read_file_lines "a.txt" w' = <[i := strip " z "]> (read_file_lines "a.txt" w)
    /\ length (read_file_lines "a.txt" w') = length (read_file_lines "a.txt" w)
    /\ read_file_lines "a.txt" w' !! i = Some (strip " z ")
    /\ (forall j : nat, j <> i ->
          read_file_lines "a.txt" w' !! j = read_file_lines "a.txt" w !! j).
Proof.
  cbv zeta.
  apply (X20_update_replaces_single_line plain_env "a.txt" 0 " z "
           (one_file "a.txt" ("k" ++ NL ++ "m" ++ NL))
           {| updated_success := true; updated_index := 0;
              updated_old_value := "k"; updated_new_value := "z" |}).
  - split; reflexivity.
  - vm_compute. reflexivity.
Defined.

Lemma normal_form_of_written env filename lines w' :
  validate_filename env filename = Return filename ->
  Forall (fun l => nonblank l /\ one_line l) lines ->
  stored filename w' = Some (file_text lines) ->
  stored filename w' = Some (file_text (read_file_lines filename w'))
  /\ has_char CR (file_text (read_file_lines filename w')) = false
  /\ export_file env filename w'
     = (Return (file_text (read_file_lines filename w')), w').
Proof.
  intros Hv Hcl Hs.
  assert (H1 : Forall one_line lines)
    by (eapply Forall_impl; [exact Hcl | now intros ? [_ ?]]).
  assert (Hread : read_file_lines filename w' = lines).
  { rewrite read_file_lines_stored, Hs. now apply lines_of_file_text. }
  rewrite Hread. split; [exact Hs|]. split; [now apply file_text_no_CR|].
  destruct (round_trip_of_written env filename lines w' Hv Hs)
    as (text & fe & He & _ & _ & Htxt & _).
  now rewrite <- (Htxt H1).
Qed.

(** X21.  A successful mutation leaves the list file in the store's own
    form, whatever blank lines, carriage returns or missing final line feed
    it had before: the file holds exactly its entries, each followed by a
    line feed, and [export_file] returns it unchanged.  For [add_entry] and
    [update_entry] this is so when the trimmed value is a single line. *)
Theorem X21_mutation_normalises_file env filename w w' :
  (exists raw r, one_line (strip raw)
                 /\ add_entry env filename raw w = (Return r, w'))
  \/ (exists idx raw r, one_line (strip raw)
                        /\ update_entry env filename idx raw w = (Return r, w'))
  \/ (exists idx r, delete_entry env filename idx w = (Return r, w')) ->
  stored filename w' = Some (file_text (read_file_lines filename w'))
  /\ has_char CR (file_text (read_file_lines filename w')) = false
  /\ export_file env filename w'
     = (Return (file_text (read_file_lines filename w')), w').
Proof.
  intros [(raw & r & Hol & H)|[(i & raw & r & Hol & H)|(i & r & H)]].
  - destruct (add_entry_Return_inv env _ _ _ _ _ H) as (Hv & Hr).
    pose proof (valid_name_not_log env _ _ Hv) as Hne.
    rewrite (add_entry_run env filename raw w Hv Hr) in H.
    destruct (mem _ _); [discriminate H|].
    destruct (read_after_commit env _ _ _ _ _ _ _ _ _ Hne H) as (_ & Hs & _).
    eapply (normal_form_of_written env filename); [exact Hv| |exact Hs].
    apply Forall_app. split; [apply read_file_lines_props|].
    apply Forall_singleton. split; [|exact Hol].
    unfold nonblank. now rewrite strip_idem.
  - destruct (update_entry_Return_inv env _ _ _ _ _ _ H) as (Hv & Hs0 & Hr).
    pose proof (valid_name_not_log env _ _ Hv) as Hne.
    rewrite (update_entry_run env filename i raw w Hv Hs0 Hr) in H.
    destruct (_ || _); [discriminate H|].
    destruct (_ && _); [discriminate H|].
    destruct (read_after_commit env _ _ _ _ _ _ _ _ _ Hne H) as (_ & Hs & _).
    eapply (normal_form_of_written env filename); [exact Hv| |exact Hs].
    apply Forall_insert; [apply read_file_lines_props|]. split; [|exact Hol].
    unfold nonblank. now rewrite strip_idem.
  - destruct (delete_entry_Return_inv env _ _ _ _ _ H) as (Hv & Hs0).
    pose proof (valid_name_not_log env _ _ Hv) as Hne.
    rewrite (delete_entry_run env filename i w Hv Hs0) in H.
    destruct (_ || _); [discriminate H|].
    destruct (read_after_commit env _ _ _ _ _ _ _ _ _ Hne H) as (_ & Hs & _).
    eapply (normal_form_of_written env filename); [exact Hv| |exact Hs].
    apply Forall_delete, read_file_lines_props.
Qed.

Lemma X21_witness :
  let w := one_file "a.txt" ("k" ++ String CR NL ++ NL ++ "  " ++ NL ++ "m") in
  let w' := snd (delete_entry plain_env "a.txt" 0 w) in
  stored "a.txt" w' = Some (file_text (read_file_lines "a.txt" w'))
  /\ has_char CR (file_text (read_file_lines "a.txt" w')) = false
  /\ export_file plain_env "a.txt" w'
     = (Return (file_text (read_file_lines "a.txt" w')), w').
Proof.
  cbv zeta.
  apply (X21_mutation_normalises_file plain_env "a.txt"
           (one_file "a.txt" ("k" ++ String CR NL ++ NL ++ "  " ++ NL ++ "m"))).
  right. right. exists 0%Z, {| deleted_success := true; deleted_value := "k" |}.
  vm_compute. reflexivity.
Defined.
